(** * Shopify webhook relay (lambda/app.py): a shallow embedding and its properties

    The program is one AWS Lambda handler with two helpers:

    - [verify_shopify_signature] recomputes base64(HMAC-SHA256(secret, body))
      and compares it with the signature header;
    - [forward_to_maistro] issues one POST to the downstream API and turns
      every outcome it handles into a (status, text) pair;
    - [lambda_handler] reads the configuration, normalises the headers,
      decodes the body, verifies, forwards and shapes the response.

    Python values are modelled as the code has them: a [str] is a list of
    Unicode code points, [bytes] is a list of [byte], a [dict] is an
    insertion-ordered association list, an [int] is a [Z].  A call that can
    raise returns a [result]; the one effect the handler has besides its
    return value, the outbound HTTP request, is recorded in a trace by a small
    monad [Py].  Of the diagnostic [print] calls the one that writes text of
    the event (line 159) is modelled, since it can raise; what is printed is
    not recorded.

    The functions of Python's standard library that the program calls
    (hashlib, hmac, base64, binascii, json, the UTF-8 codec) are modelled from
    their documented behaviour (FIPS 180-4, RFC 2104, RFC 4648, CPython 3.11's
    binascii.a2b_base64 and json.encoder) and run on the published test
    vectors below.  Three things of the runtime are parameters of the program
    ([Section Program]): the Unicode case mapping of [str.lower] beyond
    ASCII, the message text of a codec error, and what the standard output
    can encode. *)

From Stdlib Require Import List NArith ZArith Bool Lia String Ascii.
From Stdlib Require Import Strings.Byte Numbers.DecimalString.
Import ListNotations.

Open Scope N_scope.

(* ================================================================== *)
(** * Part I: definitions                                              *)
(* ================================================================== *)

(** ** Python values *)

(** [bytes]: an immutable sequence of octets. *)
Definition bytes := list byte.

(** [str]: a sequence of Unicode code points.  A code point is below
    [0x110000]; the surrogates [0xD800..0xDFFF] are code points a [str] can
    hold (os.environ and json.loads both produce them) although no codec
    encodes them. *)
Definition pystr := list N.

(** A string literal of the source, as a [pystr]. *)
Definition py (s : string) : pystr :=
  List.map N_of_ascii (list_ascii_of_string s).

Definition byte_of_N (n : N) : byte :=
  match Byte.of_N (n mod 256) with
  | Some b => b
  | None => x00
  end.

(** Python's [dict], insertion-ordered: [d[k] = v] overwrites in place when
    the key is there and appends otherwise. *)
Definition dict (V : Type) := list (pystr * V).

Definition str_eqb (a b : pystr) : bool :=
  if list_eq_dec N.eq_dec a b then true else false.

Fixpoint dict_get {V} (d : dict V) (k : pystr) : option V :=
  match d with
  | [] => None
  | (k', v) :: d' => if str_eqb k' k then Some v else dict_get d' k
  end.

Fixpoint dict_set {V} (d : dict V) (k : pystr) (v : V) : dict V :=
  match d with
  | [] => [(k, v)]
  | (k', v') :: d' =>
      if str_eqb k' k then (k', v) :: d' else (k', v') :: dict_set d' k v
  end.

(** [d.get(k, default)] *)
Definition dict_get_default {V} (d : dict V) (k : pystr) (default : V) : V :=
  match dict_get d k with
  | Some v => v
  | None => default
  end.

(** ** hashlib.sha256 (FIPS 180-4), on 32-bit words held in [N] *)

Module SHA256.

Definition wrap (x : N) : N := x mod 2 ^ 32.
Definition add32 (a b : N) : N := wrap (a + b).
Definition rotr (r x : N) : N :=
  N.lor (N.shiftr x r) (wrap (N.shiftl x (32 - r))).
Definition not32 (x : N) : N := N.lxor x 0xffffffff.

Definition Ch (x y z : N) : N := N.lxor (N.land x y) (N.land (not32 x) z).
Definition Maj (x y z : N) : N :=
  N.lxor (N.lxor (N.land x y) (N.land x z)) (N.land y z).
Definition Sigma0 (x : N) : N :=
  N.lxor (N.lxor (rotr 2 x) (rotr 13 x)) (rotr 22 x).
Definition Sigma1 (x : N) : N :=
  N.lxor (N.lxor (rotr 6 x) (rotr 11 x)) (rotr 25 x).
Definition sigma0 (x : N) : N :=
  N.lxor (N.lxor (rotr 7 x) (rotr 18 x)) (N.shiftr x 3).
Definition sigma1 (x : N) : N :=
  N.lxor (N.lxor (rotr 17 x) (rotr 19 x)) (N.shiftr x 10).

(** The constants are defined as the standard defines them: the first 32
    bits of the fractional parts of the cube roots (for [K]) and of the
    square roots (for [H0]) of the first primes. *)
Definition is_prime (n : nat) : bool :=
  List.forallb (fun d => negb (Nat.eqb (Nat.modulo n d) 0)) (List.seq 2 (n - 2)).

Definition primes : list N :=
  List.map N.of_nat (List.filter is_prime (List.seq 2 310)).

(** The integer cube root, one bit at a time from bit [bit - 1] down. *)
Fixpoint cube_root (bit : nat) (x r : N) : N :=
  match bit with
  | O => r
  | S bit' =>
      let r' := r + 2 ^ N.of_nat bit' in
      cube_root bit' x (if r' * r' * r' <=? x then r' else r)
  end.

Definition K : list N :=
  Eval vm_compute in
    List.map (fun p => wrap (cube_root 36 (p * 2 ^ 96) 0)) primes.

Definition H0 : list N :=
  Eval vm_compute in
    List.map (fun p => wrap (N.sqrt (p * 2 ^ 64))) (List.firstn 8 primes).

(** Big-endian octets of a number, [n] of them. *)
Fixpoint be_bytes (n : nat) (x : N) : bytes :=
  match n with
  | O => []
  | S n' => byte_of_N (N.shiftr x (8 * N.of_nat n')) :: be_bytes n' x
  end.

(** Padding: a 1 bit, zeros up to 56 mod 64, the bit length on 64 bits. *)
Definition pad (msg : bytes) : bytes :=
  let l := List.length msg in
  let k := ((64 - (l + 9) mod 64) mod 64)%nat in
  msg ++ [x80] ++ List.repeat x00 k ++ be_bytes 8 (8 * N.of_nat l).

(** The big-endian 32-bit words of a byte string (length a multiple of 4). *)
Fixpoint words (l : bytes) : list N :=
  match l with
  | a :: b :: c :: d :: l' =>
      (Byte.to_N a * 2 ^ 24 + Byte.to_N b * 2 ^ 16
       + Byte.to_N c * 2 ^ 8 + Byte.to_N d) :: words l'
  | _ => []
  end.

(** The message schedule: 16 words extended to 64. *)
Fixpoint schedule (n : nat) (w : list N) : list N :=
  match n with
  | O => w
  | S n' =>
      let i := List.length w in
      let at_ (j : nat) := List.nth (i - j) w 0 in
      schedule n'
        (w ++ [add32 (add32 (sigma1 (at_ 2%nat)) (at_ 7%nat))
                     (add32 (sigma0 (at_ 15%nat)) (at_ 16%nat))])
  end.

Record regs := Regs { ra : N; rb : N; rc : N; rd : N;
                      re : N; rf : N; rg : N; rh : N }.

Definition round (s : regs) (kw : N * N) : regs :=
  let (k, w) := kw in
  let t1 := add32 (add32 (add32 (rh s) (Sigma1 (re s)))
                         (add32 (Ch (re s) (rf s) (rg s)) k)) w in
  let t2 := add32 (Sigma0 (ra s)) (Maj (ra s) (rb s) (rc s)) in
  Regs (add32 t1 t2) (ra s) (rb s) (rc s) (add32 (rd s) t1) (re s) (rf s) (rg s).

Definition regs_of (h : list N) : regs :=
  Regs (nth 0 h 0) (nth 1 h 0) (nth 2 h 0) (nth 3 h 0)
       (nth 4 h 0) (nth 5 h 0) (nth 6 h 0) (nth 7 h 0).

Definition compress (h : list N) (block : list N) : list N :=
  let s := List.fold_left round (List.combine K (schedule 48 block)) (regs_of h) in
  List.map (fun p => add32 (fst p) (snd p))
    (List.combine h [ra s; rb s; rc s; rd s; re s; rf s; rg s; rh s]).

(** The 16-word blocks of a padded message. *)
Fixpoint blocks (fuel : nat) (w : list N) : list (list N) :=
  match fuel, w with
  | S fuel', _ :: _ => List.firstn 16 w :: blocks fuel' (List.skipn 16 w)
  | _, _ => []
  end.

Definition digest (msg : bytes) : bytes :=
  let w := words (pad msg) in
  let h := List.fold_left compress (blocks (List.length w) w) H0 in
  List.flat_map (be_bytes 4) h.

End SHA256.

(** ** hmac.new(key, msg, hashlib.sha256).digest() (RFC 2104) *)

Module HMAC.

Definition block_size : nat := 64.

Definition xor_byte (c : N) (b : byte) : byte :=
  byte_of_N (N.lxor (Byte.to_N b) c).

Definition block_key (key : bytes) : bytes :=
  let k := if Nat.ltb block_size (List.length key)
           then SHA256.digest key else key in
  k ++ List.repeat x00 (block_size - List.length k).

Definition digest (key msg : bytes) : bytes :=
  let k := block_key key in
  let inner := SHA256.digest (List.map (xor_byte 0x36) k ++ msg) in
  SHA256.digest (List.map (xor_byte 0x5c) k ++ inner).

End HMAC.

(** ** base64.b64encode (RFC 4648, standard alphabet, with padding) *)

Module Base64.

Definition alphabet : list byte :=
  Eval cbv in
    List.map byte_of_ascii (list_ascii_of_string
      "ABCDEFGHIJKLMNOPQRSTUVWXYZabcdefghijklmnopqrstuvwxyz0123456789+/").

Definition pad_char : byte := "="%byte.

Definition enc (n : N) : byte := List.nth (N.to_nat (n mod 64)) alphabet pad_char.

Fixpoint b64encode (l : bytes) : bytes :=
  match l with
  | [] => []
  | [a] =>
      let x := Byte.to_N a in
      [enc (x / 4); enc (x mod 4 * 16); pad_char; pad_char]
  | [a; b] =>
      let x := Byte.to_N a in
      let y := Byte.to_N b in
      [enc (x / 4); enc (x mod 4 * 16 + y / 16); enc (y mod 16 * 4); pad_char]
  | a :: b :: c :: l' =>
      let x := Byte.to_N a in
      let y := Byte.to_N b in
      let z := Byte.to_N c in
      enc (x / 4) :: enc (x mod 4 * 16 + y / 16)
        :: enc (y mod 16 * 4 + z / 64) :: enc z :: b64encode l'
  end.

End Base64.

(** ** Exceptions and results *)

(** The exception classes the program can meet.  [HTTPError] is a subclass of
    [URLError] in urllib; both are kept apart here and the [except] clauses
    below match them in the source's order.  [OtherException] stands for any
    other subclass of [Exception] the HTTP client raises (it carries the text
    of [str(e)]).

    An [HTTPError] holds the response in [e.fp], and [e.read()] reads its
    body when the handler asks for it: the read returns the octets of the
    body ([Readable]) or raises itself ([Unreadable]: the connection breaks
    or times out in the middle of the body).  [NoResponse] is an HTTPError
    built with [fp=None], which urlopen never raises: CPython 3.11 puts an
    empty io.StringIO in [e.fp], so [e.fp] is true in this state too and
    [e.read()] is the [str] ['']. *)
Inductive exn : Type :=
| HTTPError (code : Z) (msg : pystr) (fp : error_body)
| URLError (reason : pystr)
| UnicodeEncodeError (object : pystr)
| UnicodeDecodeError (object : bytes)
| BinasciiError (msg : pystr)
| ValueError (msg : pystr)
| TypeError (msg : pystr)
| AttributeError (msg : pystr)
| TimeoutError (msg : pystr)
| OtherException (text : pystr)
with error_body : Type :=
| Readable (raw : bytes)
| Unreadable (e : exn)
| NoResponse.

Inductive result (A : Type) : Type :=
| Ok (a : A)
| Raise (e : exn).
Arguments Ok {A} a.
Arguments Raise {A} e.

Definition rbind {A B} (r : result A) (f : A -> result B) : result B :=
  match r with
  | Ok a => f a
  | Raise e => Raise e
  end.

Declare Scope result_scope.
Delimit Scope result_scope with result.
Notation "x <- r ;; k" := (rbind r (fun x => k))
  (at level 61, r at next level, right associativity) : result_scope.

(** ** The UTF-8 codec *)

Definition is_ascii (c : N) : bool := c <? 128.

Definition is_surrogate (c : N) : bool := (0xD800 <=? c) && (c <=? 0xDFFF).

(** The octets of one code point; [None] for a surrogate (and for a number
    that is no code point). *)
Definition utf8_encode_char (c : N) : option bytes :=
  if c <? 0x80 then Some [byte_of_N c]
  else if c <? 0x800 then
    Some [byte_of_N (0xC0 + c / 64); byte_of_N (0x80 + c mod 64)]
  else if is_surrogate c then None
  else if c <? 0x10000 then
    Some [byte_of_N (0xE0 + c / 4096); byte_of_N (0x80 + c / 64 mod 64);
          byte_of_N (0x80 + c mod 64)]
  else if c <? 0x110000 then
    Some [byte_of_N (0xF0 + c / 262144); byte_of_N (0x80 + c / 4096 mod 64);
          byte_of_N (0x80 + c / 64 mod 64); byte_of_N (0x80 + c mod 64)]
  else None.

Fixpoint utf8_encode_from (whole s : pystr) : result bytes :=
  match s with
  | [] => Ok []
  | c :: s' =>
      match utf8_encode_char c with
      | None => Raise (UnicodeEncodeError whole)
      | Some bs =>
          match utf8_encode_from whole s' with
          | Ok rest => Ok (bs ++ rest)
          | Raise e => Raise e
          end
      end
  end.

(** [s.encode('utf-8')] *)
Definition str_encode_utf8 (s : pystr) : result bytes := utf8_encode_from s s.

Definition is_continuation (c : N) : bool := (0x80 <=? c) && (c <? 0xC0).

(** The strict decoder, by lead byte as CPython's does: overlong forms,
    surrogates and values above U+10FFFF are refused. *)
Fixpoint utf8_decode (l : bytes) : option pystr :=
  match l with
  | [] => Some []
  | b :: r1 =>
      let c := Byte.to_N b in
      if c <? 0x80 then option_map (cons c) (utf8_decode r1)
      else if c <? 0xC2 then None
      else if c <? 0xE0 then
        match r1 with
        | b2 :: r2 =>
            let c2 := Byte.to_N b2 in
            if is_continuation c2
            then option_map (cons ((c - 0xC0) * 64 + (c2 - 0x80))) (utf8_decode r2)
            else None
        | _ => None
        end
      else if c <? 0xF0 then
        match r1 with
        | b2 :: b3 :: r3 =>
            let c2 := Byte.to_N b2 in
            let c3 := Byte.to_N b3 in
            if is_continuation c2 && is_continuation c3
               && negb ((c =? 0xE0) && (c2 <? 0xA0))
               && negb ((c =? 0xED) && (0xA0 <=? c2))
            then option_map
                   (cons ((c - 0xE0) * 4096 + (c2 - 0x80) * 64 + (c3 - 0x80)))
                   (utf8_decode r3)
            else None
        | _ => None
        end
      else if c <? 0xF5 then
        match r1 with
        | b2 :: b3 :: b4 :: r4 =>
            let c2 := Byte.to_N b2 in
            let c3 := Byte.to_N b3 in
            let c4 := Byte.to_N b4 in
            if is_continuation c2 && is_continuation c3 && is_continuation c4
               && negb ((c =? 0xF0) && (c2 <? 0x90))
               && negb ((c =? 0xF4) && (0x90 <=? c2))
            then option_map
                   (cons ((c - 0xF0) * 262144 + (c2 - 0x80) * 4096
                          + (c3 - 0x80) * 64 + (c4 - 0x80)))
                   (utf8_decode r4)
            else None
        | _ => None
        end
      else None
  end.

(** [b.decode('utf-8')] *)
Definition bytes_decode_utf8 (b : bytes) : result pystr :=
  match utf8_decode b with
  | Some s => Ok s
  | None => Raise (UnicodeDecodeError b)
  end.

(** [e.read().decode('utf-8')] on an HTTPError [e]. *)
Definition read_decode (fp : error_body) : result pystr :=
  match fp with
  | Readable raw => bytes_decode_utf8 raw
  | Unreadable e' => Raise e'
  | NoResponse =>
      Raise (AttributeError (py "'str' object has no attribute 'decode'"))
  end.

(** ** hmac.compare_digest on two [str] *)

(** CPython's [_tscmp] (Modules/_operator.c): the loop runs over the length
    of [b] whatever [a] is and folds the XOR of every pair of characters into
    one flag. *)
Definition tscmp (a b : pystr) : bool :=
  let same_length := Nat.eqb (List.length a) (List.length b) in
  let left := if same_length then a else b in
  let result := if same_length then 0 else 1 in
  List.fold_left (fun r p => N.lor r (N.lxor (fst p) (snd p)))
    (List.combine left b) result =? 0.

Definition compare_digest (a b : pystr) : result bool :=
  if List.forallb is_ascii a && List.forallb is_ascii b
  then Ok (tscmp a b)
  else Raise (TypeError
         (py "comparing strings with non-ASCII characters is not supported")).

(** ** base64.b64decode(s) for a [str] argument *)

Module Base64Decode.

(** binascii's table: the value of a character of the alphabet. *)
Definition table_a2b (c : N) : option N :=
  if (65 <=? c) && (c <=? 90) then Some (c - 65)
  else if (97 <=? c) && (c <=? 122) then Some (c - 71)
  else if (48 <=? c) && (c <=? 57) then Some (c + 4)
  else if c =? 43 then Some 62
  else if c =? 47 then Some 63
  else None.

Definition incorrect_padding : exn :=
  BinasciiError (py "Incorrect padding").

(** One character of data is left over after [octets] octets of output. *)
Definition invalid_length (octets : nat) : exn :=
  BinasciiError
    (py "Invalid base64-encoded string: number of data characters ("
     ++ py (NilZero.string_of_uint (Nat.to_uint (octets / 3 * 4 + 1)))
     ++ py ") cannot be 1 more than a multiple of 4").

(** binascii.a2b_base64 with strict_mode off: characters outside the
    alphabet are skipped, a pad that completes a quad ends the input, and
    an unfinished quad at the end is an error.  [out] is the output so
    far, last octet first. *)
Fixpoint a2b_base64 (l : list N) (quad_pos : nat) (leftchar : N)
         (pads : nat) (out : bytes) : result bytes :=
  match l with
  | [] =>
      match quad_pos with
      | 0%nat => Ok (List.rev out)
      | 1%nat => Raise (invalid_length (List.length out))
      | _ => Raise incorrect_padding
      end
  | this_ch :: l' =>
      if this_ch =? 61 then
        if Nat.leb 2 quad_pos then
          if Nat.leb 4 (quad_pos + S pads) then Ok (List.rev out)
          else a2b_base64 l' quad_pos leftchar (S pads) out
        else a2b_base64 l' quad_pos leftchar pads out
      else
        match table_a2b this_ch with
        | None => a2b_base64 l' quad_pos leftchar pads out
        | Some v =>
            match quad_pos with
            | 0%nat => a2b_base64 l' 1 v 0 out
            | 1%nat =>
                a2b_base64 l' 2 (v mod 16) 0
                  (byte_of_N (leftchar * 4 + v / 16) :: out)
            | 2%nat =>
                a2b_base64 l' 3 (v mod 4) 0
                  (byte_of_N (leftchar * 16 + v / 4) :: out)
            | _ =>
                a2b_base64 l' 0 0 0 (byte_of_N (leftchar * 64 + v) :: out)
            end
        end
  end.

Definition b64decode (s : pystr) : result bytes :=
  if List.forallb is_ascii s
  then a2b_base64 s 0 0 0 []
  else Raise (ValueError
         (py "string argument should contain only ASCII characters")).

End Base64Decode.

(** ** json.dumps on the dictionaries the program builds *)

Module Json.

Inductive value : Type :=
| JStr (s : pystr)
| JInt (n : Z).

Definition hex_digit (n : N) : N := if n <? 10 then 48 + n else 87 + n.

(** ["\uXXXX"], four lower-case hexadecimal digits. *)
Definition u_escape (c : N) : pystr :=
  [92; 117; hex_digit (c / 4096 mod 16); hex_digit (c / 256 mod 16);
   hex_digit (c / 16 mod 16); hex_digit (c mod 16)].

(** json.encoder's ESCAPE_ASCII: the backslash, the double quote and every
    character outside [' '..'~'] are escaped. *)
Definition escape_char (c : N) : pystr :=
  if c =? 34 then [92; 34]
  else if c =? 92 then [92; 92]
  else if c =? 10 then [92; 110]
  else if c =? 13 then [92; 114]
  else if c =? 9 then [92; 116]
  else if c =? 8 then [92; 98]
  else if c =? 12 then [92; 102]
  else if (32 <=? c) && (c <=? 126) then [c]
  else if c <? 0x10000 then u_escape c
  else
    let n := c - 0x10000 in
    u_escape (0xD800 + n / 1024 mod 1024) ++ u_escape (0xDC00 + n mod 1024).

Definition encode_str (s : pystr) : pystr :=
  [34] ++ List.flat_map escape_char s ++ [34].

(** [str(n)] of an [int]. *)
Definition str_of_int (n : Z) : pystr :=
  py (NilZero.string_of_int (Z.to_int n)).

Definition encode_value (v : value) : pystr :=
  match v with
  | JStr s => encode_str s
  | JInt n => str_of_int n
  end.

Fixpoint encode_items (d : dict value) : pystr :=
  match d with
  | [] => []
  | [(k, v)] => encode_str k ++ py ": " ++ encode_value v
  | (k, v) :: d' =>
      encode_str k ++ py ": " ++ encode_value v ++ py ", " ++ encode_items d'
  end.

(** [json.dumps(d)] with the default separators and ensure_ascii. *)
Definition dumps (d : dict value) : pystr :=
  py "{" ++ encode_items d ++ py "}".

End Json.

(** * The program *)

(** ** verify_shopify_signature (app.py, lines 11-38) *)

(** The [try] body computes the digest, encodes it and compares; any
    exception ([secret.encode] on a surrogate, [compare_digest] on a
    non-ASCII header) is caught and turned into [False]. *)
Definition verify_shopify_signature
           (data : bytes) (hmac_header secret : pystr) : bool :=
  match (key <- str_encode_utf8 secret ;;
         let computed_hmac := HMAC.digest key data in
         computed_hmac_b64 <-
           bytes_decode_utf8 (Base64.b64encode computed_hmac) ;;
         compare_digest computed_hmac_b64 hmac_header)%result
  with
  | Ok b => b
  | Raise _ => false
  end.

(** ** The outbound call and the monad of the handler *)

(** [urllib.request.Request(url, data=, headers=, method=)] *)
Record Request : Type := mkRequest {
  req_url : pystr;
  req_data : bytes;
  req_headers : dict pystr;
  req_method : pystr
}.

(** One [urlopen(req, timeout=t)]. *)
Record http_call : Type := mkCall {
  call_request : Request;
  call_timeout : Z
}.

(** What [urlopen] and the reading of the response come to: a response with
    its status and body, or an exception. *)
Inductive urlopen_outcome : Type :=
| Responded (status : Z) (body : bytes)
| Failed (e : exn).

(** The network, as the handler sees it. *)
Definition network := http_call -> urlopen_outcome.

(** A computation that may raise and may call out: it reads the network and
    extends the trace of calls made so far. *)
Definition Py (A : Type) : Type :=
  network -> list http_call -> result A * list http_call.

Definition ret {A} (a : A) : Py A := fun _ tr => (Ok a, tr).

Definition bind {A B} (m : Py A) (f : A -> Py B) : Py B :=
  fun net tr =>
    match m net tr with
    | (Ok a, tr') => f a net tr'
    | (Raise e, tr') => (Raise e, tr')
    end.

Definition lift {A} (r : result A) : Py A := fun _ tr => (r, tr).

(** [try: m  except ... as e: h e]; a handler that matches no clause
    re-raises. *)
Definition try_except {A} (m : Py A) (h : exn -> Py A) : Py A :=
  fun net tr =>
    match m net tr with
    | (Ok a, tr') => (Ok a, tr')
    | (Raise e, tr') => h e net tr'
    end.

Definition urlopen (req : Request) (timeout : Z) : Py (Z * bytes) :=
  fun net tr =>
    let c := mkCall req timeout in
    (match net c with
     | Responded status body => Ok (status, body)
     | Failed e => Raise e
     end, tr ++ [c]).

Declare Scope py_scope.
Delimit Scope py_scope with py.
Notation "x <- m ;; k" := (bind m (fun x => k))
  (at level 61, m at next level, right associativity) : py_scope.
Notation "' pat <- m ;; k" := (bind m (fun pat => k))
  (at level 61, pat pattern, m at next level, right associativity) : py_scope.

(** ** The event and the response *)

(** The API Gateway event, as far as the handler reads it and typed as the
    specification's data model types it: a mapping of header names to header
    values (both [str]), a body ([str]) and the base64 flag ([bool]).  Each
    of the three keys may be missing: [event.get] supplies a default. *)
Record Event : Type := mkEvent {
  ev_headers : option (dict pystr);
  ev_body : option pystr;
  ev_isBase64Encoded : option bool
}.

Record Response : Type := mkResponse {
  statusCode : Z;
  body : pystr
}.

(** Python's truth value of a [str] and of an [Optional[str]]. *)
Definition truthy (s : pystr) : bool :=
  match s with
  | [] => false
  | _ :: _ => true
  end.

Definition truthy_opt (o : option pystr) : bool :=
  match o with
  | Some s => truthy s
  | None => false
  end.

(** The [str] behind an [Optional[str]] that passed a truth test. *)
Definition the_str (o : option pystr) : pystr :=
  match o with
  | Some s => s
  | None => []
  end.

Definition ascii_lower (c : N) : N :=
  if (65 <=? c) && (c <=? 90) then c + 32 else c.

Definition signature_header : pystr := py "x-shopify-hmac-sha256".

(** ** Reading test vectors *)

Definition bytes_of_string (s : string) : bytes :=
  List.map byte_of_ascii (list_ascii_of_string s).

Definition hex_digit (n : N) : ascii :=
  ascii_of_N (if n <? 10 then 48 + n else 87 + n).

Definition hex (l : bytes) : string :=
  string_of_list_ascii
    (List.flat_map (fun b => [hex_digit (Byte.to_N b / 16);
                              hex_digit (Byte.to_N b mod 16)]) l).

(** ** Sample inputs *)

Module Sample.

Definition secret : pystr := py "s3cr3t".
Definition api_key : pystr := py "k-123".

Definition environ : dict pystr :=
  [ (py "SHOPIFY_SECRET", secret);
    (py "MAISTRO_API_KEY", api_key);
    (py "MAISTRO_INSTANCE_ID", py "inst-1") ].

(** The same without an instance id. *)
Definition environ_no_instance : dict pystr :=
  [ (py "SHOPIFY_SECRET", secret); (py "MAISTRO_API_KEY", api_key) ].

(** The same with an instance id, but without an API key. *)
Definition environ_no_api_key : dict pystr :=
  [ (py "SHOPIFY_SECRET", secret); (py "MAISTRO_INSTANCE_ID", py "inst-1") ].

Definition payload : pystr := py "[1, 2, 3]".
Definition payload_bytes : bytes :=
  List.map byte_of_N payload.

(** base64(HMAC-SHA256("s3cr3t", "[1, 2, 3]")), from Python's hmac. *)
Definition signature : pystr :=
  py "PzgL7QL9OpeOaDtgZJbZeol6NTs9lahqOP/bsVG6CMA=".

(** The signature of the same body under the key "other". *)
Definition foreign_signature : pystr :=
  py "twr4WS38z7KvE85R3IN5FA1xkd5ZwlYMPlvgl7AjSZY=".

Definition signed_event : Event :=
  mkEvent (Some [(py "Content-Type", py "application/json");
                 (py "X-Shopify-Hmac-SHA256", signature);
                 (py "X-Shopify-Topic", py "orders/fulfilled")])
          (Some payload) (Some false).

Definition forged_event : Event :=
  mkEvent (Some [(py "X-Shopify-Hmac-SHA256", foreign_signature)])
          (Some payload) (Some false).

Definition unsigned_event : Event :=
  mkEvent (Some [(py "Content-Type", py "application/json")])
          (Some payload) (Some false).

Definition empty_signature_event : Event :=
  mkEvent (Some [(py "X-Shopify-Hmac-SHA256", [])])
          (Some payload) (Some false).

(** The flag says base64, the body is three characters of the alphabet
    with no padding. *)
Definition bad_base64_event : Event :=
  mkEvent (Some [(py "X-Shopify-Hmac-SHA256", signature)])
          (Some (py "abc")) (Some true).

(** Downstream answers. *)
Definition net_ok : network :=
  fun _ => Responded 200 (List.map byte_of_N (py "[true]")).
Definition net_unavailable : network :=
  fun _ => Failed (HTTPError 503 (py "Service Unavailable")
                     (Readable (List.map byte_of_N (py "busy")))).
Definition net_down : network :=
  fun _ => Failed (URLError (py "timed out")).
(** A 502 whose body is the single octet 0xFF: not UTF-8. *)
Definition net_garbled_error : network :=
  fun _ => Failed (HTTPError 502 (py "Bad Gateway") (Readable [xff])).
(** The response did not arrive within the timeout: http.client raises
    TimeoutError from [getresponse], which urllib does not wrap. *)
Definition net_read_timeout : network :=
  fun _ => Failed (TimeoutError (py "timed out")).

(** The sample inputs are ASCII and meet no codec error whose text is
    read, so the two runtime tables are never consulted on them. *)
Definition lower : pystr -> pystr := fun s => s.
Definition error_text : exn -> pystr := fun _ => [].

(** A standard output that is a UTF-8 stream with the strict error handler:
    it writes every text but one that holds a surrogate. *)
Definition stdout : pystr -> bool :=
  fun text =>
    match str_encode_utf8 text with
    | Ok _ => true
    | Raise _ => false
    end.

(** The signed event with a topic that holds the surrogate U+D800. *)
Definition unloggable_event : Event :=
  mkEvent (Some [(py "X-Shopify-Hmac-SHA256", signature);
                 (py "X-Shopify-Topic", py "orders/" ++ [0xD800])])
          (Some payload) (Some false).

(** A 503 whose body breaks off while it is read. *)
Definition net_broken_body : network :=
  fun _ => Failed (HTTPError 503 (py "Service Unavailable")
                     (Unreadable (OtherException (py "IncompleteRead")))).

(** A 200 whose body is not UTF-8. *)
Definition net_garbled_ok : network :=
  fun _ => Responded 200 [xff].

(** A secret as os.environ delivers the octet 0x80: a lone surrogate. *)
Definition undecodable_secret : pystr := py "s3cr3t" ++ [0xDC80].

(** The sample signature with its first letter replaced by U+00E9. *)
Definition non_ascii_signature : pystr := 0xE9 :: List.tl signature.

(** The signature header twice, under two casings: a wrong value first, the
    right one last. *)
Definition twice_signed_event : Event :=
  mkEvent (Some ([(py "X-SHOPIFY-HMAC-SHA256", foreign_signature)]
                 ++ (py "X-Shopify-Hmac-SHA256", signature) :: []))
          (Some payload) (Some false).

(** A 503 whose body is U+00E9 in UTF-8. *)
Definition net_accented : network :=
  fun _ =>
    Failed (HTTPError 503 (py "Service Unavailable") (Readable [xc3; xa9])).

End Sample.

Section Program.

(** Two tables of the Python runtime are taken as given: the Unicode case
    mapping behind [str.lower] on a string that is not ASCII, and the text
    of a codec error ([str(e)] of a UnicodeError). *)
Variable unicode_lower : pystr -> pystr.
Variable unicode_error_text : exn -> pystr.

(** What the standard output can write is given too: [sys.stdout] encodes
    the text it is handed with its own encoding and error handler, which
    the execution environment sets. *)
Variable stdout_encodes : pystr -> bool.

(** [print(text)]: the text goes to the standard output, which raises
    UnicodeEncodeError on a text it cannot encode.  Of the program's print
    calls one writes text that comes from the event, the topic and shop
    domain of line 159; it is the one modelled.  The others write constants,
    integers, decoded UTF-8 or the text of an exception of the HTTP client
    or of a codec: text without a surrogate, which a standard output in
    UTF-8 (the one of the Lambda runtime) writes under every error
    handler. *)
Definition print_ (text : pystr) : Py unit :=
  lift (if stdout_encodes text then Ok tt
        else Raise (UnicodeEncodeError text)).

(** [s.lower()] *)
Definition str_lower (s : pystr) : pystr :=
  if List.forallb is_ascii s then List.map ascii_lower s
  else unicode_lower s.

(** [str(e)] *)
Definition exn_str (e : exn) : pystr :=
  match e with
  | HTTPError code msg _ =>
      py "HTTP Error " ++ Json.str_of_int code ++ py ": " ++ msg
  | URLError reason => py "<urlopen error " ++ reason ++ py ">"
  | BinasciiError msg | ValueError msg | TypeError msg
  | AttributeError msg | TimeoutError msg => msg
  | OtherException text => text
  | UnicodeEncodeError _ | UnicodeDecodeError _ => unicode_error_text e
  end.

(** ** forward_to_maistro (app.py, lines 41-93) *)

Definition maistro_url (instance_id : pystr) : pystr :=
  py "https://api-usw.neuralseek.com/v1/" ++ instance_id ++ py "/maistro".

Definition maistro_headers (api_key override_agent debug : pystr)
  : dict pystr :=
  [ (py "Content-Type", py "application/json");
    (py "apikey", api_key);
    (py "overrideschema", py "true");
    (py "overrideagent", override_agent);
    (py "debug", debug) ].

Definition forward_to_maistro
           (payload : bytes) (api_key override_agent debug instance_id : pystr)
  : Py (Z * pystr) :=
  let url := maistro_url instance_id in
  let headers := maistro_headers api_key override_agent debug in
  try_except
    (let req := mkRequest url payload headers (py "POST") in
     '(status_code, raw) <- urlopen req 25 ;;
     response_body <- lift (bytes_decode_utf8 raw) ;;
     ret (status_code, response_body))%py
    (fun e =>
       match e with
       | HTTPError code _ fp =>
           (* line 85: [e.fp] is an object in every state, so the test
              holds, [e.read().decode('utf-8')] runs and [str(e)] is not
              used *)
           (error_body <- lift (read_decode fp) ;;
            ret (code, error_body))%py
       | URLError _ =>
           ret (502%Z,
                Json.dumps [(py "error",
                             Json.JStr (py "Failed to connect to Maistro API"))])
       | _ =>
           ret (500%Z, Json.dumps [(py "error", Json.JStr (exn_str e))])
       end).

(** ** lambda_handler (app.py, lines 96-188) *)

Definition error_response (status : Z) (text : string) : Response :=
  mkResponse status (Json.dumps [(py "error", Json.JStr (py text))]).

(** [{k.lower(): v for k, v in headers.items()}] *)
Definition lower_keys (headers : dict pystr) : dict pystr :=
  List.fold_left (fun d kv => dict_set d (str_lower (fst kv)) (snd kv))
    headers [].

(** Lines 138-144: the raw body. *)
Definition decode_body (event : Event) : result bytes :=
  let body := match ev_body event with Some b => b | None => [] end in
  let is_base64 :=
    match ev_isBase64Encoded event with Some f => f | None => false end in
  if is_base64 then Base64Decode.b64decode body
  else str_encode_utf8 body.

Definition lambda_handler (environ : dict pystr) (event : Event)
  : Py Response :=
  let shopify_secret := dict_get environ (py "SHOPIFY_SECRET") in
  let maistro_api_key := dict_get environ (py "MAISTRO_API_KEY") in
  let maistro_instance_id :=
    dict_get_default environ (py "MAISTRO_INSTANCE_ID") (py "my-instance") in
  let maistro_override_agent :=
    dict_get_default environ (py "MAISTRO_OVERRIDE_AGENT")
                     (py "test_order_fulfilled") in
  let maistro_debug :=
    dict_get_default environ (py "MAISTRO_DEBUG") (py "false") in
  if negb (truthy_opt shopify_secret) || negb (truthy_opt maistro_api_key)
     || negb (truthy maistro_instance_id)
  then ret (error_response 500 "Configuration error")
  else
    let headers :=
      match ev_headers event with Some h => h | None => [] end in
    let headers_lower := lower_keys headers in
    let hmac_header := dict_get headers_lower signature_header in
    if negb (truthy_opt hmac_header)
    then ret (error_response 401 "Missing signature header")
    else
      (body_bytes <- lift (decode_body event) ;;
       if negb (verify_shopify_signature body_bytes (the_str hmac_header)
                                         (the_str shopify_secret))
       then ret (error_response 401 "Invalid signature")
       else
         let topic :=
           dict_get_default headers_lower (py "x-shopify-topic")
                            (py "unknown") in
         let shop_domain :=
           dict_get_default headers_lower (py "x-shopify-shop-domain")
                            (py "unknown") in
         _ <- print_ (py "Webhook topic: " ++ topic ++ py ", Shop: "
                      ++ shop_domain) ;;
         '(status_code, response_body) <-
           forward_to_maistro body_bytes (the_str maistro_api_key)
             maistro_override_agent maistro_debug maistro_instance_id ;;
         if (200 <=? status_code)%Z && (status_code <? 300)%Z
         then
           ret (mkResponse 200
                  (Json.dumps
                     [(py "message", Json.JStr (py "Webhook processed successfully"));
                      (py "maistro_status", Json.JInt status_code)]))
         else
           ret (mkResponse 200
                  (Json.dumps
                     [(py "message",
                       Json.JStr (py "Webhook received but forwarding failed"));
                      (py "maistro_status", Json.JInt status_code);
                      (py "error", Json.JStr response_body)])))%py.

(** ** The vocabulary of the specification *)

(** base64(HMAC-SHA256(secret, data)) as text: the signature the sender
    computes.  There is none when the secret has no UTF-8 encoding. *)
Definition expected_signature (secret : pystr) (data : bytes)
  : option pystr :=
  match str_encode_utf8 secret with
  | Ok key =>
      Some (List.map Byte.to_N (Base64.b64encode (HMAC.digest key data)))
  | Raise _ => None
  end.

(** [event.get('headers', {})] *)
Definition event_headers (event : Event) : dict pystr :=
  match ev_headers event with
  | Some h => h
  | None => []
  end.

(** The value the handler reads for a header, by its lower-case name. *)
Definition header_value (event : Event) (name : pystr) : option pystr :=
  dict_get (lower_keys (event_headers event)) name.

(** The line the handler prints on an authenticated event (line 159). *)
Definition log_line (event : Event) : pystr :=
  py "Webhook topic: "
  ++ dict_get_default (lower_keys (event_headers event))
                      (py "x-shopify-topic") (py "unknown")
  ++ py ", Shop: "
  ++ dict_get_default (lower_keys (event_headers event))
                      (py "x-shopify-shop-domain") (py "unknown").

(** The standard output can write that line. *)
Definition loggable (event : Event) : Prop :=
  stdout_encodes (log_line event) = true.

(** The value of the last header with this name, whatever its casing. *)
Fixpoint last_value (headers : dict pystr) (name : pystr) : option pystr :=
  match headers with
  | [] => None
  | (k, v) :: headers' =>
      match last_value headers' name with
      | Some v' => Some v'
      | None => if str_eqb (str_lower k) name then Some v else None
      end
  end.

(** No header of the event has this name, under any letter-casing. *)
Definition lacks_header (headers : dict pystr) (name : pystr) : Prop :=
  forall k v, In (k, v) headers -> str_lower k <> name.

(** The configuration is complete: the secret and the API key are set and
    not empty, and the instance id is not set to the empty string. *)
Definition configured (environ : dict pystr) (secret api_key : pystr)
  : Prop :=
  dict_get environ (py "SHOPIFY_SECRET") = Some secret /\ secret <> [] /\
  dict_get environ (py "MAISTRO_API_KEY") = Some api_key /\ api_key <> [] /\
  dict_get environ (py "MAISTRO_INSTANCE_ID") <> Some [].

(** The call the forwarder makes: one POST of the payload, 25 seconds. *)
Definition the_call (payload : bytes)
           (api_key override_agent debug instance_id : pystr) : http_call :=
  mkCall (mkRequest (maistro_url instance_id) payload
                    (maistro_headers api_key override_agent debug)
                    (py "POST")) 25.


(** The one outbound call of an invocation that forwards [payload]. *)
Definition outbound_call (environ : dict pystr) (api_key : pystr)
           (payload : bytes) : http_call :=
  the_call payload api_key
    (dict_get_default environ (py "MAISTRO_OVERRIDE_AGENT")
                      (py "test_order_fulfilled"))
    (dict_get_default environ (py "MAISTRO_DEBUG") (py "false"))
    (dict_get_default environ (py "MAISTRO_INSTANCE_ID") (py "my-instance")).

(** The forwarder, with the arguments the handler gives it. *)
Definition forwarded (environ : dict pystr) (api_key : pystr)
           (payload : bytes) : Py (Z * pystr) :=
  forward_to_maistro payload api_key
    (dict_get_default environ (py "MAISTRO_OVERRIDE_AGENT")
                      (py "test_order_fulfilled"))
    (dict_get_default environ (py "MAISTRO_DEBUG") (py "false"))
    (dict_get_default environ (py "MAISTRO_INSTANCE_ID") (py "my-instance")).

(** The event passes authentication: the configuration is complete, the
    body decodes to [body_bytes] and the signature header the handler
    reads verifies against the secret. *)
Definition verified (environ : dict pystr) (secret api_key : pystr)
           (event : Event) (body_bytes : bytes) : Prop :=
  configured environ secret api_key /\
  exists hmac_header,
    header_value event signature_header = Some hmac_header /\
    decode_body event = Ok body_bytes /\
    verify_shopify_signature body_bytes hmac_header secret = true.

Definition success_response (status : Z) : Response :=
  mkResponse 200
    (Json.dumps
       [(py "message", Json.JStr (py "Webhook processed successfully"));
        (py "maistro_status", Json.JInt status)]).

Definition failure_response (status : Z) (text : pystr) : Response :=
  mkResponse 200
    (Json.dumps
       [(py "message",
         Json.JStr (py "Webhook received but forwarding failed"));
        (py "maistro_status", Json.JInt status);
        (py "error", Json.JStr text)]).

(** A printable ASCII character, [' '..'~']. *)
Definition printable (c : N) : bool := (32 <=? c) && (c <=? 126).

(** The configuration rule as the specification words it: any of the
    three values absent from the environment is refused with 500. *)
Definition absent_configuration_is_refused : Prop :=
  forall environ event net,
    dict_get environ (py "SHOPIFY_SECRET") = None
    \/ dict_get environ (py "MAISTRO_API_KEY") = None
    \/ dict_get environ (py "MAISTRO_INSTANCE_ID") = None ->
    lambda_handler environ event net []
    = (Ok (error_response 500 "Configuration error"), []).

(* ================================================================ *)
(** * Part II: properties                                            *)
(* ================================================================ *)

(** ** The library models *)

Lemma fold_lor_zero : forall (l : list (N * N)) (r : N),
  List.fold_left (fun r p => N.lor r (N.lxor (fst p) (snd p))) l r = 0
  <-> r = 0 /\ Forall (fun p => fst p = snd p) l.
Proof.
  induction l as [|[x y] l IH]; intros r; simpl.
  - split; [intros ->; split; constructor | intros [-> _]; reflexivity].
  - rewrite IH, N.lor_eq_0_iff. split.
    + intros [[Hr Hx] Hl]. split; [exact Hr|]. constructor; [|exact Hl].
      simpl. now apply N.lxor_eq.
    + intros [Hr Hl]. inversion Hl as [|p l' Hp Hl']; subst.
      simpl in Hp; subst y. now rewrite N.lxor_nilpotent.
Qed.

Lemma combine_pointwise_eq : forall (a b : pystr),
  List.length a = List.length b ->
  (Forall (fun p => fst p = snd p) (List.combine a b) <-> a = b).
Proof.
  induction a as [|x a IH]; intros [|y b] Hlen; simpl in *; try discriminate.
  - split; [reflexivity | constructor].
  - injection Hlen as Hlen. split.
    + intros H. inversion H as [|p l Hp Hl]; subst. simpl in Hp; subst y.
      f_equal. now apply IH.
    + intros [= -> ->]. constructor; [reflexivity|]. now apply IH.
Qed.

(** The constant-time comparison decides equality. *)
Lemma tscmp_spec : forall a b : pystr, tscmp a b = true <-> a = b.
Proof.
  intros a b. unfold tscmp.
  destruct (Nat.eqb (List.length a) (List.length b)) eqn:Hlen.
  - apply Nat.eqb_eq in Hlen.
    rewrite N.eqb_eq, fold_lor_zero, combine_pointwise_eq by exact Hlen.
    split; [intros [_ H]; exact H | intros H; split; [reflexivity | exact H]].
  - apply Nat.eqb_neq in Hlen. rewrite N.eqb_eq, fold_lor_zero. split.
    + intros [H _]. discriminate H.
    + intros ->. now elim Hlen.
Qed.

Lemma enc_is_ascii : forall n, is_ascii (Byte.to_N (Base64.enc n)) = true.
Proof.
  intros n. unfold Base64.enc.
  assert (Hall : Forall (fun b => is_ascii (Byte.to_N b) = true)
                   (Base64.pad_char :: Base64.alphabet))
    by (repeat constructor).
  rewrite Forall_forall in Hall. apply Hall.
  destruct (nth_in_or_default (N.to_nat (n mod 64)) Base64.alphabet
              Base64.pad_char) as [Hin | ->].
  - now right.
  - now left.
Qed.

(** Induction three octets at a time, as [b64encode] recurses. *)
Lemma triples_ind : forall (A : Type) (P : list A -> Prop),
  P [] -> (forall a, P [a]) -> (forall a b, P [a; b]) ->
  (forall a b c l, P l -> P (a :: b :: c :: l)) ->
  forall l, P l.
Proof.
  intros A P H0 H1 H2 H3.
  fix IH 1. intros [|a [|b [|c l]]];
    [exact H0 | apply H1 | apply H2 | apply H3; apply IH].
Qed.

Lemma b64encode_is_ascii : forall l : bytes,
  List.forallb is_ascii (List.map Byte.to_N (Base64.b64encode l)) = true.
Proof.
  induction l as [| a | a b | a b c l IH] using triples_ind.
  - reflexivity.
  - cbn [Base64.b64encode List.map List.forallb].
    now rewrite !enc_is_ascii.
  - cbn [Base64.b64encode List.map List.forallb].
    now rewrite !enc_is_ascii.
  - cbn [Base64.b64encode List.map List.forallb].
    now rewrite !enc_is_ascii, IH.
Qed.

(** ASCII octets decode to themselves. *)
Lemma utf8_decode_ascii : forall l : bytes,
  List.forallb is_ascii (List.map Byte.to_N l) = true ->
  utf8_decode l = Some (List.map Byte.to_N l).
Proof.
  induction l as [|b l IH]; [reflexivity|].
  cbn [List.map List.forallb]. intros H.
  apply andb_true_iff in H as [Hb Hl].
  cbn [utf8_decode]. unfold is_ascii in Hb. cbv zeta.
  change 0x80 with 128. rewrite Hb, IH by exact Hl. reflexivity.
Qed.

(** ** The Signature Verifier *)

Lemma compare_digest_ascii : forall a b : pystr,
  List.forallb is_ascii a = true ->
  (compare_digest a b = Ok true <-> a = b).
Proof.
  intros a b Ha. unfold compare_digest. rewrite Ha. cbn [andb].
  destruct (List.forallb is_ascii b) eqn:Hb.
  - split.
    + intros [= H]. now apply tscmp_spec.
    + intros H. f_equal. now apply tscmp_spec.
  - split; [discriminate|].
    intros <-. rewrite Ha in Hb. discriminate.
Qed.

(** What the [try] body of the verifier computes for a secret that
    encodes to [key]. *)
Lemma verify_with_key : forall data hmac_header secret key,
  str_encode_utf8 secret = Ok key ->
  verify_shopify_signature data hmac_header secret
  = match compare_digest
            (List.map Byte.to_N (Base64.b64encode (HMAC.digest key data)))
            hmac_header
    with
    | Ok b => b
    | Raise _ => false
    end.
Proof.
  intros data hmac_header secret key Hkey.
  unfold verify_shopify_signature, bytes_decode_utf8.
  rewrite Hkey. cbn [rbind].
  rewrite utf8_decode_ascii by apply b64encode_is_ascii.
  reflexivity.
Qed.

(** The verifier answers [True] on exactly one header value. *)
Lemma verify_iff_expected :
  forall (data : bytes) (secret digest : pystr),
    verify_shopify_signature data digest secret = true
    <-> expected_signature secret data = Some digest.
Proof.
  intros data secret digest. unfold expected_signature.
  destruct (str_encode_utf8 secret) as [key | e] eqn:Hkey.
  - rewrite (verify_with_key data digest secret key Hkey).
    pose proof (compare_digest_ascii
                  (List.map Byte.to_N (Base64.b64encode (HMAC.digest key data)))
                  digest (b64encode_is_ascii _)) as Hcmp.
    destruct (compare_digest _ digest) as [[|] | e].
    + split; [intros _ | reflexivity].
      f_equal. now apply Hcmp.
    + split; [discriminate|].
      intros [= H]. apply Hcmp in H. discriminate.
    + split; [discriminate|].
      intros [= H]. apply Hcmp in H. discriminate.
  - unfold verify_shopify_signature. rewrite Hkey. cbn [rbind].
    split; discriminate.
Qed.

(** C1.  For every payload and secret, the verifier returns [True] on
    base64(HMAC-SHA256(secret, payload)) and [False] on every digest that
    is not that one.  (A secret that has no UTF-8 encoding has no correct
    digest: the verifier then returns [False] on every digest.) *)
Theorem verify_shopify_signature_correct :
  forall (data : bytes) (secret : pystr),
    (forall digest, expected_signature secret data = Some digest ->
                    verify_shopify_signature data digest secret = true)
    /\
    (forall digest, expected_signature secret data <> Some digest ->
                    verify_shopify_signature data digest secret = false).
Proof.
  intros data secret. split; intros digest H.
  - now apply verify_iff_expected.
  - destruct (verify_shopify_signature data digest secret) eqn:E;
      [|reflexivity].
    elim H. now apply verify_iff_expected.
Qed.

(** ** Dictionaries and the header lookup *)

Lemma str_eqb_eq : forall a b : pystr, str_eqb a b = true <-> a = b.
Proof.
  intros a b. unfold str_eqb.
  destruct (list_eq_dec N.eq_dec a b); split; congruence.
Qed.

Lemma str_eqb_refl : forall a : pystr, str_eqb a a = true.
Proof. intros a. now apply str_eqb_eq. Qed.

Lemma str_eqb_neq : forall a b : pystr, a <> b -> str_eqb a b = false.
Proof.
  intros a b H. destruct (str_eqb a b) eqn:E; [|reflexivity].
  apply str_eqb_eq in E. contradiction.
Qed.

Lemma dict_get_set : forall (V : Type) (d : dict V) (k k' : pystr) (v : V),
  dict_get (dict_set d k v) k'
  = if str_eqb k k' then Some v else dict_get d k'.
Proof.
  induction d as [|[k0 v0] d IH]; intros k k' v; simpl.
  - reflexivity.
  - destruct (str_eqb k0 k) eqn:E0; simpl.
    + apply str_eqb_eq in E0. subst k0.
      now destruct (str_eqb k k').
    + rewrite IH. destruct (str_eqb k0 k') eqn:E1; [|reflexivity].
      destruct (str_eqb k k') eqn:E2; [|reflexivity].
      apply str_eqb_eq in E1, E2. subst k0 k'.
      rewrite str_eqb_refl in E0. discriminate.
Qed.

(** The dict comprehension keeps, for every lowered name, the value of the
    last header that has it. *)
Lemma fold_dict_set_get : forall (headers d : dict pystr) (name : pystr),
  dict_get
    (List.fold_left (fun d kv => dict_set d (str_lower (fst kv)) (snd kv))
       headers d) name
  = match last_value headers name with
    | Some v => Some v
    | None => dict_get d name
    end.
Proof.
  induction headers as [|[k v] headers IH]; intros d name; simpl.
  - reflexivity.
  - rewrite IH, dict_get_set.
    destruct (last_value headers name); [reflexivity|].
    now destruct (str_eqb (str_lower k) name).
Qed.

Lemma header_value_last : forall event name,
  header_value event name = last_value (event_headers event) name.
Proof.
  intros event name. unfold header_value, lower_keys.
  rewrite fold_dict_set_get. now destruct (last_value _ name).
Qed.

Lemma last_value_lacks : forall headers name,
  lacks_header headers name -> last_value headers name = None.
Proof.
  induction headers as [|[k v] headers IH]; intros name H; simpl.
  - reflexivity.
  - rewrite IH by (intros k' v' Hin; apply (H k' v'); now right).
    rewrite str_eqb_neq; [reflexivity|].
    apply (H k v). now left.
Qed.

Lemma last_value_app : forall pre post name,
  last_value (pre ++ post) name
  = match last_value post name with
    | Some v => Some v
    | None => last_value pre name
    end.
Proof.
  induction pre as [|[k v] pre IH]; intros post name; simpl.
  - now destruct (last_value post name).
  - rewrite IH. now destruct (last_value post name).
Qed.

(** ** The configuration check *)

Lemma truthy_nonempty : forall s : pystr, s <> [] -> truthy s = true.
Proof. intros [|c s] H; [now elim H | reflexivity]. Qed.

Lemma truthy_default : forall (environ : dict pystr) (k default : pystr),
  dict_get environ k <> Some [] -> default <> [] ->
  truthy (dict_get_default environ k default) = true.
Proof.
  intros environ k default H Hd. unfold dict_get_default.
  destruct (dict_get environ k) as [v|].
  - apply truthy_nonempty. intros ->. now elim H.
  - now apply truthy_nonempty.
Qed.

Lemma my_instance_nonempty : py "my-instance" <> [].
Proof. discriminate. Qed.

(** With a complete configuration the handler goes past its first test. *)
Ltac pass_configuration H ev :=
  let Hs := fresh "Hsecret" in
  let Hsn := fresh "Hsecret_ne" in
  let Hk := fresh "Hkey" in
  let Hkn := fresh "Hkey_ne" in
  let Hi := fresh "Hinstance" in
  destruct H as (Hs & Hsn & Hk & Hkn & Hi);
  unfold lambda_handler;
  rewrite Hs, Hk; cbn [truthy_opt the_str];
  rewrite (truthy_nonempty _ Hsn), (truthy_nonempty _ Hkn),
    (truthy_default _ _ _ Hi my_instance_nonempty);
  cbn [negb orb];
  fold (event_headers ev);
  fold (header_value ev signature_header).

(** ** The entry point: authentication *)

(** C7.  With a complete configuration, an event that has no signature
    header under any letter-casing of its name is answered 401 with the
    body {"error": "Missing signature header"}, whatever its body and
    encoding flag are, and nothing is sent downstream. *)
Theorem missing_signature_header_401 :
  forall environ secret api_key event net,
    configured environ secret api_key ->
    lacks_header (event_headers event) signature_header ->
    lambda_handler environ event net []
    = (Ok (error_response 401 "Missing signature header"), []).
Proof.
  intros environ secret api_key event net Hconf Hlacks.
  pass_configuration Hconf event.
  rewrite header_value_last, (last_value_lacks _ _ Hlacks).
  reflexivity.
Qed.

(** C10.  With a complete configuration, an event whose signature header
    is there with the empty string for value (and is the last header of
    that name) gets the missing-signature answer, not the
    invalid-signature one: the handler tests the value's truth, not the
    key's presence. *)
Theorem empty_signature_header_is_missing :
  forall environ secret api_key event pre k post net,
    configured environ secret api_key ->
    event_headers event = pre ++ (k, []) :: post ->
    str_lower k = signature_header ->
    lacks_header post signature_header ->
    lambda_handler environ event net []
    = (Ok (error_response 401 "Missing signature header"), []).
Proof.
  intros environ secret api_key event pre k post net Hconf Hhdrs Hk Hpost.
  pass_configuration Hconf event.
  rewrite header_value_last, Hhdrs, last_value_app. cbn [last_value].
  rewrite (last_value_lacks _ _ Hpost), Hk, str_eqb_refl.
  reflexivity.
Qed.

(** C3.  With a complete configuration, an event whose signature header
    is present and whose decoded body fails verification against the
    configured secret is answered 401 with the body
    {"error": "Invalid signature"}, and no call goes out. *)
Theorem invalid_signature_401 :
  forall environ secret api_key event hmac_header body_bytes net,
    configured environ secret api_key ->
    header_value event signature_header = Some hmac_header ->
    hmac_header <> [] ->
    decode_body event = Ok body_bytes ->
    verify_shopify_signature body_bytes hmac_header secret = false ->
    lambda_handler environ event net []
    = (Ok (error_response 401 "Invalid signature"), []).
Proof.
  intros environ secret api_key event hmac_header body_bytes net
         Hconf Hhdr Hne Hbody Hverify.
  pass_configuration Hconf event.
  rewrite Hhdr. cbn [truthy_opt the_str].
  rewrite (truthy_nonempty _ Hne). cbn [negb].
  unfold bind at 1, lift. rewrite Hbody, Hverify.
  reflexivity.
Qed.

(** ** The digest is never empty *)

Lemma compress_length : forall h block,
  List.length h = 8%nat -> List.length (SHA256.compress h block) = 8%nat.
Proof.
  intros h block H. unfold SHA256.compress.
  rewrite length_map, length_combine, H. reflexivity.
Qed.

Lemma fold_compress_length : forall bs h,
  List.length h = 8%nat ->
  List.length (List.fold_left SHA256.compress bs h) = 8%nat.
Proof.
  induction bs as [|b bs IH]; intros h H; simpl; [exact H|].
  apply IH. now apply compress_length.
Qed.

Lemma sha256_digest_length : forall msg,
  List.length (SHA256.digest msg) = 32%nat.
Proof.
  intros msg. unfold SHA256.digest.
  pose proof (fold_compress_length
                (SHA256.blocks (List.length (SHA256.words (SHA256.pad msg)))
                               (SHA256.words (SHA256.pad msg)))
                SHA256.H0 eq_refl) as H.
  destruct (List.fold_left SHA256.compress _ SHA256.H0)
    as [|a [|b [|c [|d [|e [|f [|g [|h [|i l]]]]]]]]]; try discriminate H.
  reflexivity.
Qed.

Lemma expected_signature_nonempty : forall secret data,
  expected_signature secret data <> Some [].
Proof.
  intros secret data. unfold expected_signature.
  destruct (str_encode_utf8 secret) as [key|e]; [|discriminate].
  pose proof (sha256_digest_length
                (List.map (HMAC.xor_byte 0x5c) (HMAC.block_key key)
                 ++ SHA256.digest
                      (List.map (HMAC.xor_byte 0x36) (HMAC.block_key key)
                       ++ data))) as H.
  unfold HMAC.digest.
  destruct (SHA256.digest _) as [|a [|b [|c l]]]; try discriminate H.
  discriminate.
Qed.

Lemma verified_header_nonempty : forall data hmac_header secret,
  verify_shopify_signature data hmac_header secret = true ->
  hmac_header <> [].
Proof.
  intros data hmac_header secret H ->.
  apply verify_iff_expected in H.
  now apply expected_signature_nonempty in H.
Qed.

(** ** The Relay Forwarder *)

(** Exactly one call goes out, whatever comes back, and it carries the
    payload as given. *)
Lemma forward_to_maistro_trace :
  forall payload api_key override_agent debug instance_id net tr,
    snd (forward_to_maistro payload api_key override_agent debug
                            instance_id net tr)
    = tr ++ [the_call payload api_key override_agent debug instance_id].
Proof.
  intros. unfold forward_to_maistro, try_except, bind, urlopen, lift, ret.
  fold (the_call payload api_key override_agent debug instance_id).
  destruct (net (the_call _ _ _ _ _)) as [status raw | e]; cbn.
  - unfold bytes_decode_utf8. now destruct (utf8_decode raw).
  - destruct e as [code msg fp | | | | | | | | | ]; cbn; try reflexivity.
    now destruct (read_decode fp).
Qed.

(** A completed exchange: the status and the decoded body. *)
Lemma forward_responded :
  forall payload api_key override_agent debug instance_id net tr
         status raw text,
    net (the_call payload api_key override_agent debug instance_id)
    = Responded status raw ->
    utf8_decode raw = Some text ->
    fst (forward_to_maistro payload api_key override_agent debug
                            instance_id net tr)
    = Ok (status, text).
Proof.
  intros until text. intros Hnet Hdec.
  unfold forward_to_maistro, try_except, bind, urlopen, lift, ret.
  fold (the_call payload api_key override_agent debug instance_id).
  rewrite Hnet. cbn. unfold bytes_decode_utf8. now rewrite Hdec.
Qed.




(** A response body that is not UTF-8 is such an exception: the status of
    the exchange is lost and 500 is returned in its place. *)
Lemma forward_responded_garbled :
  forall payload api_key override_agent debug instance_id net tr status raw,
    net (the_call payload api_key override_agent debug instance_id)
    = Responded status raw ->
    utf8_decode raw = None ->
    fst (forward_to_maistro payload api_key override_agent debug
                            instance_id net tr)
    = Ok (500%Z,
          Json.dumps [(py "error",
                       Json.JStr (unicode_error_text (UnicodeDecodeError raw)))]).
Proof.
  intros until raw. intros Hnet Hdec.
  unfold forward_to_maistro, try_except, bind, urlopen, lift, ret.
  fold (the_call payload api_key override_agent debug instance_id).
  rewrite Hnet. cbn. unfold bytes_decode_utf8. now rewrite Hdec.
Qed.

(** The forwarder raises in one case only: an HTTP error whose body cannot
    be read or is not UTF-8.  The reading and the decoding run inside the
    [except HTTPError] clause, where the clauses after it no longer apply,
    so their exception leaves the function. *)
Lemma forward_to_maistro_raises_iff :
  forall payload api_key override_agent debug instance_id net tr e,
    fst (forward_to_maistro payload api_key override_agent debug
                            instance_id net tr) = Raise e
    <-> exists code msg fp,
          net (the_call payload api_key override_agent debug instance_id)
          = Failed (HTTPError code msg fp)
          /\ read_decode fp = Raise e.
Proof.
  intros. unfold forward_to_maistro, try_except, bind, urlopen, lift, ret.
  fold (the_call payload api_key override_agent debug instance_id).
  destruct (net (the_call _ _ _ _ _)) as [status raw | e0]; cbn.
  - unfold bytes_decode_utf8. destruct (utf8_decode raw); cbn;
      (split; [discriminate | intros (c & m & r & H & _); discriminate H]).
  - destruct e0 as [code msg fp | | | | | | | | | ]; cbn;
      try (split; [discriminate | intros (c & m & r & H & _); discriminate H]).
    destruct (read_decode fp) as [text | e1] eqn:Hread; cbn.
    + split; [discriminate|].
      intros (c & m & r & [= -> -> ->] & Hr). congruence.
    + split.
      * intros [= <-]. now exists code, msg, fp.
      * intros (c & m & r & [= -> -> ->] & Hr). congruence.
Qed.

(** ** The entry point: forwarding *)

(** What the handler does with an authenticated event: it prints the topic
    line, which raises when the standard output cannot encode it; then it
    runs the forwarder once and shapes its result. *)
Lemma lambda_handler_verified :
  forall environ secret api_key event body_bytes net,
    verified environ secret api_key event body_bytes ->
    lambda_handler environ event net []
    = if stdout_encodes (log_line event)
      then
        match forwarded environ api_key body_bytes net [] with
        | (Ok (status_code, response_body), tr) =>
            (Ok (if (200 <=? status_code)%Z && (status_code <? 300)%Z
                 then success_response status_code
                 else failure_response status_code response_body), tr)
        | (Raise e, tr) => (Raise e, tr)
        end
      else (Raise (UnicodeEncodeError (log_line event)), []).
Proof.
  intros environ secret api_key event body_bytes net
         (Hconf & hmac_header & Hhdr & Hbody & Hverify).
  pose proof (verified_header_nonempty _ _ _ Hverify) as Hne.
  pass_configuration Hconf event.
  rewrite Hhdr. cbn [truthy_opt the_str].
  rewrite (truthy_nonempty _ Hne). cbn [negb].
  unfold bind at 1, lift. rewrite Hbody, Hverify. cbn [negb].
  fold (log_line event).
  unfold bind at 1, print_, lift.
  destruct (stdout_encodes (log_line event)); [|reflexivity].
  unfold bind, forwarded.
  destruct (forward_to_maistro _ _ _ _ _ net []) as [[[status text]|e] tr];
    [|reflexivity].
  unfold ret, success_response, failure_response.
  now destruct ((200 <=? status)%Z && (status <? 300)%Z).
Qed.

(** C4.  For an authenticated event that gets to the forwarder (the topic
    line of line 159 is written first), when the forwarder returns a status
    in the 2xx range the handler answers 200 with the success message and
    that status as maistro_status; on every other status the forwarder
    returns (a downstream error status, or the 502 and 500 it makes up)
    the handler still answers 200, with the failure message, the status
    and the forwarder's text in the error field. *)
Theorem forwarded_event_answers_200 :
  forall environ secret api_key event body_bytes net status text tr,
    verified environ secret api_key event body_bytes ->
    loggable event ->
    forwarded environ api_key body_bytes net [] = (Ok (status, text), tr) ->
    ((200 <= status < 300)%Z ->
     lambda_handler environ event net []
     = (Ok (success_response status), tr))
    /\
    (~ (200 <= status < 300)%Z ->
     lambda_handler environ event net []
     = (Ok (failure_response status text), tr)).
Proof.
  intros environ secret api_key event body_bytes net status text tr
         Hver Hlog Hfwd.
  unfold loggable in Hlog.
  rewrite (lambda_handler_verified _ _ _ _ _ net Hver), Hlog, Hfwd.
  split; intros Hrange.
  - replace ((200 <=? status)%Z && (status <? 300)%Z) with true;
      [reflexivity|].
    symmetry. apply andb_true_iff. split; [apply Z.leb_le | apply Z.ltb_lt]; lia.
  - replace ((200 <=? status)%Z && (status <? 300)%Z) with false;
      [reflexivity|].
    symmetry. apply andb_false_iff.
    destruct (Z.leb_spec 200 status); [right | now left].
    apply Z.ltb_ge. lia.
Qed.

Lemma forwarded_calls : forall environ api_key body_bytes net,
  snd (forwarded environ api_key body_bytes net [])
  = [outbound_call environ api_key body_bytes].
Proof.
  intros. unfold forwarded, outbound_call.
  now rewrite forward_to_maistro_trace.
Qed.

(** The calls of an invocation on an authenticated event: the single POST
    of the decoded body when the topic line is written, none when it is
    not. *)
Lemma verified_calls :
  forall environ secret api_key event body_bytes net,
    verified environ secret api_key event body_bytes ->
    snd (lambda_handler environ event net [])
    = if stdout_encodes (log_line event)
      then [outbound_call environ api_key body_bytes]
      else [].
Proof.
  intros environ secret api_key event body_bytes net Hver.
  rewrite (lambda_handler_verified _ _ _ _ _ net Hver).
  destruct (stdout_encodes (log_line event)); [|reflexivity].
  pose proof (forwarded_calls environ api_key body_bytes net) as Htr.
  now destruct (forwarded environ api_key body_bytes net [])
    as [[[status text]|e] tr].
Qed.

(** On an authenticated event the forwarder is called exactly when the topic
    line can be written. *)
Lemma forwarder_called_iff_loggable :
  forall environ secret api_key event body_bytes net,
    verified environ secret api_key event body_bytes ->
    snd (lambda_handler environ event net []) <> [] <-> loggable event.
Proof.
  intros environ secret api_key event body_bytes net Hver.
  rewrite (verified_calls _ _ _ _ _ net Hver). unfold loggable.
  destruct (stdout_encodes (log_line event)); split.
  - reflexivity.
  - discriminate.
  - intros H. now elim H.
  - discriminate.
Qed.

(** C8.  For an authenticated event, the body of every outbound request the
    handler makes is the decoded raw body of the event, octet for octet:
    the only request is the forwarder's POST of that body.  It is made
    exactly once when the handler gets to the forwarder (the topic line of
    line 159 is written first). *)
Theorem outbound_body_is_raw_body :
  forall environ secret api_key event body_bytes net,
    verified environ secret api_key event body_bytes ->
    (forall c, In c (snd (lambda_handler environ event net [])) ->
               c = outbound_call environ api_key body_bytes
               /\ req_data (call_request c) = body_bytes)
    /\ (loggable event ->
        snd (lambda_handler environ event net [])
        = [outbound_call environ api_key body_bytes]
        /\ List.map (fun c => req_data (call_request c))
                    (snd (lambda_handler environ event net []))
           = [body_bytes]).
Proof.
  intros environ secret api_key event body_bytes net Hver.
  rewrite (verified_calls _ _ _ _ _ net Hver). split.
  - intros c Hc. destruct (stdout_encodes (log_line event)); [|contradiction].
    destruct Hc as [<- | []]. split; reflexivity.
  - intros Hlog. unfold loggable in Hlog. rewrite Hlog. split; reflexivity.
Qed.

(** ** The entry point: header names *)

(** C9.  Two events that differ only in the letter-casing of one header
    name (the signature header's among them) get the same response and
    cause the same outbound calls, under every configuration and every
    behaviour of the network. *)
Theorem header_name_case_insensitive :
  forall environ pre post k1 k2 v body flag net tr,
    str_lower k1 = str_lower k2 ->
    lambda_handler environ (mkEvent (Some (pre ++ (k1, v) :: post)) body flag)
                   net tr
    = lambda_handler environ (mkEvent (Some (pre ++ (k2, v) :: post)) body flag)
                     net tr.
Proof.
  intros environ pre post k1 k2 v body flag net tr Hk.
  unfold lambda_handler, decode_body. cbn [ev_headers ev_body ev_isBase64Encoded].
  replace (lower_keys (pre ++ (k1, v) :: post))
    with (lower_keys (pre ++ (k2, v) :: post)); [reflexivity|].
  unfold lower_keys. rewrite !fold_left_app. cbn [List.fold_left fst snd].
  now rewrite Hk.
Qed.

(** ** The entry point: configuration *)

Lemma dict_get_set_other :
  forall (environ : dict pystr) (k k' v : pystr),
    k <> k' -> dict_get (dict_set environ k v) k' = dict_get environ k'.
Proof.
  intros environ k k' v H. rewrite dict_get_set. now rewrite str_eqb_neq.
Qed.

(** C6, as the code has it.  The handler answers 500 with the body
    {"error": "Configuration error"}, and calls nothing, when the secret or
    the API key is absent or empty or when the instance id is set to the
    empty string.  An absent instance id is not refused: the handler then
    runs as it does with the instance id set to "my-instance". *)
Theorem configuration_error_500 :
  forall environ event net,
    (truthy_opt (dict_get environ (py "SHOPIFY_SECRET")) = false
     \/ truthy_opt (dict_get environ (py "MAISTRO_API_KEY")) = false
     \/ dict_get environ (py "MAISTRO_INSTANCE_ID") = Some [] ->
     lambda_handler environ event net []
     = (Ok (error_response 500 "Configuration error"), []))
    /\
    (dict_get environ (py "MAISTRO_INSTANCE_ID") = None ->
     lambda_handler environ event net []
     = lambda_handler
         (dict_set environ (py "MAISTRO_INSTANCE_ID") (py "my-instance"))
         event net []).
Proof.
  intros environ event net. split.
  - intros H. unfold lambda_handler.
    destruct H as [H | [H | H]].
    + rewrite H. reflexivity.
    + rewrite H. cbn [negb]. rewrite orb_true_r. reflexivity.
    + unfold dict_get_default at 1. rewrite H. cbn [truthy negb].
      rewrite orb_true_r. reflexivity.
  - intros H. unfold lambda_handler, dict_get_default.
    rewrite (dict_get_set_other environ _ (py "SHOPIFY_SECRET")),
      (dict_get_set_other environ _ (py "MAISTRO_API_KEY")),
      (dict_get_set_other environ _ (py "MAISTRO_OVERRIDE_AGENT")),
      (dict_get_set_other environ _ (py "MAISTRO_DEBUG")) by discriminate.
    rewrite dict_get_set, str_eqb_refl, H. reflexivity.
Qed.

(** ** Where an exception leaves the program *)



(** X13.  Every response the handler returns has status 200, 401 or 500:
    the statuses of the downstream service appear in the body only. *)
Lemma lambda_handler_status :
  forall environ event net r tr,
    lambda_handler environ event net [] = (Ok r, tr) ->
    statusCode r = 200%Z \/ statusCode r = 401%Z \/ statusCode r = 500%Z.
Proof.
  intros environ event net r tr. unfold lambda_handler.
  destruct (negb _ || negb _ || negb _).
  { intros [= <- _]. cbn. tauto. }
  destruct (negb (truthy_opt _)).
  { intros [= <- _]. cbn. tauto. }
  unfold bind at 1, lift.
  destruct (decode_body event) as [body_bytes | e]; [|discriminate].
  destruct (negb (verify_shopify_signature _ _ _)).
  { intros [= <- _]. cbn. tauto. }
  unfold bind at 1, print_, lift.
  destruct (stdout_encodes _); [|discriminate].
  unfold bind.
  destruct (forward_to_maistro _ _ _ _ _ net []) as [[[status text] | e] tr'];
    [|discriminate].
  destruct ((200 <=? status)%Z && (status <? 300)%Z);
    intros [= <- _]; cbn; tauto.
Qed.

(** C5, where it breaks.  Whenever the downstream service answers with an
    error status and a body that is not UTF-8, urlopen raises HTTPError,
    the clause that handles it decodes the body, and the UnicodeDecodeError
    of that decoding leaves the forwarder: an exception raised inside an
    [except] clause is not taken by the clauses after it. *)
Theorem forward_to_maistro_raises :
  forall payload api_key override_agent debug instance_id net code msg raw,
    net (the_call payload api_key override_agent debug instance_id)
    = Failed (HTTPError code msg (Readable raw)) ->
    utf8_decode raw = None ->
    forward_to_maistro payload api_key override_agent debug instance_id net []
    = (Raise (UnicodeDecodeError raw),
       [the_call payload api_key override_agent debug instance_id]).
Proof.
  intros payload api_key override_agent debug instance_id net code msg raw
         Hnet Hdec.
  unfold forward_to_maistro, try_except, bind, urlopen, lift, ret.
  fold (the_call payload api_key override_agent debug instance_id).
  rewrite Hnet. cbn. unfold bytes_decode_utf8. rewrite Hdec. reflexivity.
Qed.

(** C2, where it breaks.  With a complete configuration and a signature
    header, whatever exception the decoding of the body raises leaves the
    handler: nothing catches it, no response is returned and nothing is
    sent. *)
Theorem undecodable_body_raises :
  forall environ secret api_key event hmac_header e net,
    configured environ secret api_key ->
    header_value event signature_header = Some hmac_header ->
    hmac_header <> [] ->
    decode_body event = Raise e ->
    lambda_handler environ event net [] = (Raise e, []).
Proof.
  intros environ secret api_key event hmac_header e net
         Hconf Hhdr Hne Hbody.
  pass_configuration Hconf event.
  rewrite Hhdr. cbn [truthy_opt the_str].
  rewrite (truthy_nonempty _ Hne). cbn [negb].
  unfold bind at 1, lift. rewrite Hbody. reflexivity.
Qed.

(** The exception of the forwarder leaves the handler too. *)
Lemma forwarder_exception_raises :
  forall environ secret api_key event body_bytes net e tr,
    verified environ secret api_key event body_bytes ->
    loggable event ->
    forwarded environ api_key body_bytes net [] = (Raise e, tr) ->
    lambda_handler environ event net [] = (Raise e, tr).
Proof.
  intros environ secret api_key event body_bytes net e tr Hver Hlog Hfwd.
  unfold loggable in Hlog.
  rewrite (lambda_handler_verified _ _ _ _ _ net Hver), Hlog, Hfwd.
  reflexivity.
Qed.

(** And so does the exception of the print of line 159: an authenticated
    event whose topic line the standard output cannot encode is not
    forwarded and gets no response. *)
Lemma unloggable_event_raises :
  forall environ secret api_key event body_bytes net,
    verified environ secret api_key event body_bytes ->
    stdout_encodes (log_line event) = false ->
    lambda_handler environ event net []
    = (Raise (UnicodeEncodeError (log_line event)), []).
Proof.
  intros environ secret api_key event body_bytes net Hver Hlog.
  now rewrite (lambda_handler_verified _ _ _ _ _ net Hver), Hlog.
Qed.

(* ================================================================ *)
(** * Part II, continued: further properties of the three functions  *)
(* ================================================================ *)

(** ** base64: decoding undoes encoding *)

Lemma byte_of_to_N : forall b : byte, byte_of_N (Byte.to_N b) = b.
Proof.
  intros b. unfold byte_of_N.
  pose proof (Byte.to_N_bounded b) as Hb.
  rewrite N.mod_small by lia. now rewrite Byte.of_to_N.
Qed.

Lemma table_a2b_enc : forall n,
  Base64Decode.table_a2b (Byte.to_N (Base64.enc n)) = Some (n mod 64).
Proof.
  intros n. unfold Base64.enc.
  assert (Hlt : (N.to_nat (n mod 64) < 64)%nat)
    by (pose proof (N.mod_upper_bound n 64); lia).
  rewrite <- (N2Nat.id (n mod 64)) at 2.
  generalize dependent (N.to_nat (n mod 64)). intros k Hlt.
  do 64 (destruct k as [|k]; [reflexivity|]). lia.
Qed.

Lemma enc_not_pad : forall n, (Byte.to_N (Base64.enc n) =? 61) = false.
Proof.
  intros n. destruct (Byte.to_N (Base64.enc n) =? 61) eqn:E; [|reflexivity].
  apply N.eqb_eq in E. pose proof (table_a2b_enc n) as H.
  rewrite E in H. discriminate H.
Qed.

(** One step of the decoder on a character the encoder wrote. *)
Lemma a2b_base64_enc : forall n t quad_pos leftchar pads out,
  Base64Decode.a2b_base64 (Byte.to_N (Base64.enc n) :: t)
                          quad_pos leftchar pads out
  = match quad_pos with
    | 0%nat => Base64Decode.a2b_base64 t 1 (n mod 64) 0 out
    | 1%nat => Base64Decode.a2b_base64 t 2 (n mod 64 mod 16) 0
                 (byte_of_N (leftchar * 4 + n mod 64 / 16) :: out)
    | 2%nat => Base64Decode.a2b_base64 t 3 (n mod 64 mod 4) 0
                 (byte_of_N (leftchar * 16 + n mod 64 / 4) :: out)
    | _ => Base64Decode.a2b_base64 t 0 0 0
             (byte_of_N (leftchar * 64 + n mod 64) :: out)
    end.
Proof.
  intros. cbn [Base64Decode.a2b_base64].
  rewrite enc_not_pad, table_a2b_enc. reflexivity.
Qed.

Lemma a2b_base64_roundtrip : forall (l : bytes) (out : bytes),
  Base64Decode.a2b_base64 (List.map Byte.to_N (Base64.b64encode l)) 0 0 0 out
  = Ok (List.rev out ++ l).
Proof.
  induction l as [| a | a b | a b c l IH] using triples_ind; intros out.
  - cbn. now rewrite app_nil_r.
  - cbn [Base64.b64encode List.map].
    rewrite !a2b_base64_enc. cbn.
    pose proof (Byte.to_N_bounded a) as Ha.
    replace (Byte.to_N a / 4 mod 64 * 4 + Byte.to_N a mod 4 * 16 mod 64 / 16)
      with (Byte.to_N a) by (zify; Z.to_euclidean_division_equations; lia).
    now rewrite byte_of_to_N.
  - cbn [Base64.b64encode List.map].
    rewrite !a2b_base64_enc. cbn.
    pose proof (Byte.to_N_bounded a) as Ha.
    pose proof (Byte.to_N_bounded b) as Hb.
    replace (Byte.to_N a / 4 mod 64 * 4
             + (Byte.to_N a mod 4 * 16 + Byte.to_N b / 16) mod 64 / 16)
      with (Byte.to_N a) by (zify; Z.to_euclidean_division_equations; lia).
    replace ((Byte.to_N a mod 4 * 16 + Byte.to_N b / 16) mod 64 mod 16 * 16
             + Byte.to_N b mod 16 * 4 mod 64 / 4)
      with (Byte.to_N b) by (zify; Z.to_euclidean_division_equations; lia).
    rewrite !byte_of_to_N. now rewrite <- app_assoc.
  - cbn [Base64.b64encode List.map].
    rewrite !a2b_base64_enc. rewrite IH. cbn [List.rev].
    pose proof (Byte.to_N_bounded a) as Ha.
    pose proof (Byte.to_N_bounded b) as Hb.
    pose proof (Byte.to_N_bounded c) as Hc.
    replace (Byte.to_N a / 4 mod 64 * 4
             + (Byte.to_N a mod 4 * 16 + Byte.to_N b / 16) mod 64 / 16)
      with (Byte.to_N a) by (zify; Z.to_euclidean_division_equations; lia).
    replace ((Byte.to_N a mod 4 * 16 + Byte.to_N b / 16) mod 64 mod 16 * 16
             + (Byte.to_N b mod 16 * 4 + Byte.to_N c / 64) mod 64 / 4)
      with (Byte.to_N b) by (zify; Z.to_euclidean_division_equations; lia).
    replace ((Byte.to_N b mod 16 * 4 + Byte.to_N c / 64) mod 64 mod 4 * 64
             + Byte.to_N c mod 64)
      with (Byte.to_N c) by (zify; Z.to_euclidean_division_equations; lia).
    rewrite !byte_of_to_N. rewrite <- !app_assoc. reflexivity.
Qed.

(** [base64.b64decode(base64.b64encode(l).decode())] is [l]. *)
Lemma b64decode_b64encode : forall l : bytes,
  Base64Decode.b64decode (List.map Byte.to_N (Base64.b64encode l)) = Ok l.
Proof.
  intros l. unfold Base64Decode.b64decode.
  rewrite b64encode_is_ascii. apply (a2b_base64_roundtrip l []).
Qed.

(** ** What the handler reads of an event *)

(** The handler reads an event through four things only: the values of the
    signature, topic and shop-domain headers and the decoded body. *)
Lemma lambda_handler_reads : forall environ ev1 ev2 net tr,
  header_value ev1 signature_header = header_value ev2 signature_header ->
  header_value ev1 (py "x-shopify-topic")
  = header_value ev2 (py "x-shopify-topic") ->
  header_value ev1 (py "x-shopify-shop-domain")
  = header_value ev2 (py "x-shopify-shop-domain") ->
  decode_body ev1 = decode_body ev2 ->
  lambda_handler environ ev1 net tr = lambda_handler environ ev2 net tr.
Proof.
  intros environ ev1 ev2 net tr Hhdr Htopic Hshop Hbody.
  unfold lambda_handler, dict_get_default.
  fold (event_headers ev1). fold (event_headers ev2).
  fold (header_value ev1 signature_header).
  fold (header_value ev2 signature_header).
  fold (header_value ev1 (py "x-shopify-topic")).
  fold (header_value ev2 (py "x-shopify-topic")).
  fold (header_value ev1 (py "x-shopify-shop-domain")).
  fold (header_value ev2 (py "x-shopify-shop-domain")).
  now rewrite Hhdr, Htopic, Hshop, Hbody.
Qed.

(** A header can be taken out without changing what is read under a name
    when its own name is another one, or when a later header has that
    name. *)
Lemma last_value_drop : forall pre k v rest name,
  str_lower k <> name \/ last_value rest name <> None ->
  last_value (pre ++ (k, v) :: rest) name = last_value (pre ++ rest) name.
Proof.
  intros pre k v rest name H.
  rewrite !last_value_app. cbn [last_value].
  destruct (last_value rest name) as [v'|]; [reflexivity|].
  destruct H as [H | H]; [|now elim H].
  now rewrite (str_eqb_neq _ _ H).
Qed.

(** X18.  A header whose name is none of the three the handler reads
    (signature, topic, shop domain), under any casing, has no influence:
    with it or without it the handler returns the same result and makes the
    same calls. *)
Theorem other_headers_are_ignored :
  forall environ pre k v post body flag net tr,
    str_lower k <> signature_header ->
    str_lower k <> py "x-shopify-topic" ->
    str_lower k <> py "x-shopify-shop-domain" ->
    lambda_handler environ (mkEvent (Some (pre ++ (k, v) :: post)) body flag)
                   net tr
    = lambda_handler environ (mkEvent (Some (pre ++ post)) body flag) net tr.
Proof.
  intros environ pre k v post body flag net tr Hsig Htopic Hshop.
  apply lambda_handler_reads; try reflexivity;
    rewrite !header_value_last; cbn [event_headers ev_headers];
    apply last_value_drop; now left.
Qed.

(** X19.  When several headers have the signature header's name under one
    casing or another, the last of them is the one that counts: the
    dictionary comprehension of line 127 overwrites.  An earlier one can be
    taken out of the event without changing the result or the calls. *)
Theorem last_signature_header_wins :
  forall environ pre k0 v0 mid k v post body flag net tr,
    str_lower k0 = signature_header ->
    str_lower k = signature_header ->
    lambda_handler environ
      (mkEvent (Some (pre ++ (k0, v0) :: mid ++ (k, v) :: post)) body flag)
      net tr
    = lambda_handler environ
        (mkEvent (Some (pre ++ mid ++ (k, v) :: post)) body flag) net tr.
Proof.
  intros environ pre k0 v0 mid k v post body flag net tr Hk0 Hk.
  apply lambda_handler_reads; try reflexivity;
    rewrite !header_value_last; cbn [event_headers ev_headers];
    apply last_value_drop.
  - right. rewrite last_value_app. cbn [last_value].
    destruct (last_value post signature_header); [discriminate|].
    rewrite Hk, str_eqb_refl. discriminate.
  - left. rewrite Hk0. discriminate.
  - left. rewrite Hk0. discriminate.
Qed.

(** X20.  The base64 framing is transparent.  An event that carries the
    base64 text of some octets with the flag set is handled exactly as the
    event that carries, with the flag unset or missing, a text whose UTF-8
    encoding is those octets: same result, same calls. *)
Theorem base64_framing_is_transparent :
  forall environ headers text raw flag net tr,
    str_encode_utf8 text = Ok raw ->
    flag = Some false \/ flag = None ->
    lambda_handler environ
      (mkEvent headers (Some (List.map Byte.to_N (Base64.b64encode raw)))
               (Some true)) net tr
    = lambda_handler environ (mkEvent headers (Some text) flag) net tr.
Proof.
  intros environ headers text raw flag net tr Henc Hflag.
  apply lambda_handler_reads; try reflexivity.
  unfold decode_body. cbn [ev_body ev_isBase64Encoded].
  rewrite b64decode_b64encode.
  destruct Hflag as [-> | ->]; now rewrite Henc.
Qed.

(** ** The five ways an invocation ends *)

Lemma truthy_opt_some : forall o : option pystr,
  truthy_opt o = true -> exists s, o = Some s /\ s <> [].
Proof.
  intros [[|c s]|] H; try discriminate H.
  exists (c :: s). split; [reflexivity | discriminate].
Qed.

Lemma configured_test : forall environ,
  negb (truthy_opt (dict_get environ (py "SHOPIFY_SECRET")))
  || negb (truthy_opt (dict_get environ (py "MAISTRO_API_KEY")))
  || negb (truthy (dict_get_default environ (py "MAISTRO_INSTANCE_ID")
                                    (py "my-instance"))) = false
  <-> exists secret api_key, configured environ secret api_key.
Proof.
  intros environ. split.
  - intros H.
    apply orb_false_iff in H as [H Hi]. apply orb_false_iff in H as [Hs Hk].
    apply negb_false_iff in Hs, Hk, Hi.
    apply truthy_opt_some in Hs as (secret & Hs & Hsn).
    apply truthy_opt_some in Hk as (api_key & Hk & Hkn).
    exists secret, api_key. repeat split; try assumption.
    intros Hi'. unfold dict_get_default in Hi. rewrite Hi' in Hi.
    discriminate Hi.
  - intros (secret & api_key & Hs & Hsn & Hk & Hkn & Hi).
    rewrite Hs, Hk. cbn [truthy_opt].
    now rewrite (truthy_nonempty _ Hsn), (truthy_nonempty _ Hkn),
      (truthy_default _ _ _ Hi my_instance_nonempty).
Qed.

(** Every invocation ends in one of five ways: a configuration error; a
    missing signature; an exception of the body decoding; an invalid
    signature; or, for an authenticated event, the exception of the print of
    line 159 or else whatever the forwarder's result is turned into.  Only
    the last makes a call. *)
Lemma lambda_handler_cases : forall environ event net,
  (~ (exists secret api_key, configured environ secret api_key)
   /\ lambda_handler environ event net []
      = (Ok (error_response 500 "Configuration error"), []))
  \/ (lambda_handler environ event net []
      = (Ok (error_response 401 "Missing signature header"), []))
  \/ (exists e, lambda_handler environ event net [] = (Raise e, []))
  \/ (lambda_handler environ event net []
      = (Ok (error_response 401 "Invalid signature"), []))
  \/ (exists secret api_key body_bytes,
        verified environ secret api_key event body_bytes
        /\ lambda_handler environ event net []
           = if stdout_encodes (log_line event)
             then
               match forwarded environ api_key body_bytes net [] with
               | (Ok (status_code, response_body), tr) =>
                   (Ok (if (200 <=? status_code)%Z && (status_code <? 300)%Z
                        then success_response status_code
                        else failure_response status_code response_body), tr)
               | (Raise e, tr) => (Raise e, tr)
               end
             else (Raise (UnicodeEncodeError (log_line event)), [])).
Proof.
  intros environ event net.
  destruct (negb (truthy_opt (dict_get environ (py "SHOPIFY_SECRET")))
            || negb (truthy_opt (dict_get environ (py "MAISTRO_API_KEY")))
            || negb (truthy (dict_get_default environ
                               (py "MAISTRO_INSTANCE_ID") (py "my-instance"))))
    eqn:Hconf.
  - left. split.
    + intros H. apply configured_test in H. rewrite H in Hconf.
      discriminate Hconf.
    + unfold lambda_handler. now rewrite Hconf.
  - right. apply configured_test in Hconf as (secret & api_key & Hconf).
    destruct (header_value event signature_header) as [hmac_header|] eqn:Hhdr.
    2:{ left. pass_configuration Hconf event. now rewrite Hhdr. }
    destruct hmac_header as [|c h].
    { left. pass_configuration Hconf event. now rewrite Hhdr. }
    right.
    destruct (decode_body event) as [body_bytes | e] eqn:Hbody.
    2:{ left. exists e. pass_configuration Hconf event.
        rewrite Hhdr. cbn [truthy_opt truthy negb].
        unfold bind at 1, lift. now rewrite Hbody. }
    right.
    destruct (verify_shopify_signature body_bytes (c :: h) secret) eqn:Hv.
    + right. exists secret, api_key, body_bytes.
      assert (Hver : verified environ secret api_key event body_bytes)
        by (split; [exact Hconf | now exists (c :: h)]).
      split; [exact Hver|].
      exact (lambda_handler_verified environ secret api_key event body_bytes
               net Hver).
    + left. pass_configuration Hconf event.
      rewrite Hhdr. cbn [truthy_opt truthy negb the_str].
      unfold bind at 1, lift. now rewrite Hbody, Hv.
Qed.

(** X14.  Nothing is sent downstream for an event that is not authenticated.
    If an invocation makes any outbound call, the configuration is complete
    and the event carries a signature that verifies over its decoded body;
    and the call is the single POST of that body. *)
Theorem no_call_without_valid_signature :
  forall environ event net,
    snd (lambda_handler environ event net []) <> [] ->
    exists secret api_key body_bytes,
      verified environ secret api_key event body_bytes
      /\ snd (lambda_handler environ event net [])
         = [outbound_call environ api_key body_bytes].
Proof.
  intros environ event net Hcall.
  destruct (lambda_handler_cases environ event net)
    as [[_ H] | [H | [[e H] | [H | (secret & api_key & body_bytes & Hver & H)]]]];
    try (rewrite H in Hcall; now elim Hcall).
  exists secret, api_key, body_bytes. split; [exact Hver|].
  destruct (stdout_encodes (log_line event));
    [|rewrite H in Hcall; now elim Hcall].
  rewrite H. pose proof (forwarded_calls environ api_key body_bytes net) as Htr.
  now destruct (forwarded environ api_key body_bytes net [])
    as [[[status text] | e] tr].
Qed.

(** X15.  The handler answers 200 for authenticated events only, and then it
    has forwarded: a response of status 200 means the event verified, one
    call was made and the forwarder returned the status the body reports. *)
Theorem answer_200_only_if_verified :
  forall environ event net r tr,
    lambda_handler environ event net [] = (Ok r, tr) ->
    statusCode r = 200%Z ->
    exists secret api_key body_bytes status text,
      verified environ secret api_key event body_bytes
      /\ forwarded environ api_key body_bytes net [] = (Ok (status, text), tr)
      /\ tr = [outbound_call environ api_key body_bytes]
      /\ r = (if (200 <=? status)%Z && (status <? 300)%Z
              then success_response status
              else failure_response status text).
Proof.
  intros environ event net r tr Hrun Hstatus.
  destruct (lambda_handler_cases environ event net)
    as [[_ H] | [H | [[e H] | [H | (secret & api_key & body_bytes & Hver & H)]]]];
    rewrite Hrun in H;
    try (injection H as -> _; discriminate Hstatus);
    try discriminate H.
  destruct (stdout_encodes (log_line event)); [|discriminate H].
  exists secret, api_key, body_bytes.
  pose proof (forwarded_calls environ api_key body_bytes net) as Htr.
  destruct (forwarded environ api_key body_bytes net [])
    as [[[status text] | e] tr']; [|discriminate H].
  injection H as -> ->. exists status, text. cbn [snd] in Htr.
  split; [exact Hver|]. split; [reflexivity|].
  split; [exact Htr | reflexivity].
Qed.

(** X16.  A 500 answer always is the configuration error.  A failure of the
    downstream service, whatever its status, never surfaces as a 500 of the
    handler: it is wrapped in a 200. *)
Theorem answer_500_is_configuration_error :
  forall environ event net r tr,
    lambda_handler environ event net [] = (Ok r, tr) ->
    statusCode r = 500%Z ->
    r = error_response 500 "Configuration error"
    /\ tr = []
    /\ ~ (exists secret api_key, configured environ secret api_key).
Proof.
  intros environ event net r tr Hrun Hstatus.
  destruct (lambda_handler_cases environ event net)
    as [[Hc H] | [H | [[e H] | [H | (secret & api_key & body_bytes & Hver & H)]]]];
    rewrite Hrun in H.
  - injection H as -> ->. now repeat split.
  - injection H as -> _. discriminate Hstatus.
  - discriminate H.
  - injection H as -> _. discriminate Hstatus.
  - destruct (stdout_encodes (log_line event)); [|discriminate H].
    destruct (forwarded environ api_key body_bytes net [])
      as [[[status text] | e] tr']; [|discriminate H].
    injection H as -> _.
    destruct ((200 <=? status)%Z && (status <? 300)%Z); discriminate Hstatus.
Qed.

(** X17.  An answer other than 200 means that nothing was sent downstream. *)
Theorem rejected_event_makes_no_call :
  forall environ event net r tr,
    lambda_handler environ event net [] = (Ok r, tr) ->
    statusCode r <> 200%Z ->
    tr = [].
Proof.
  intros environ event net r tr Hrun Hstatus.
  destruct (lambda_handler_cases environ event net)
    as [[_ H] | [H | [[e H] | [H | (secret & api_key & body_bytes & Hver & H)]]]];
    rewrite Hrun in H;
    try (injection H as _ ->; reflexivity);
    try discriminate H.
  destruct (stdout_encodes (log_line event)); [|discriminate H].
  destruct (forwarded environ api_key body_bytes net [])
    as [[[status text] | e] tr']; [|discriminate H].
  injection H as -> _. elim Hstatus.
  now destruct ((200 <=? status)%Z && (status <? 300)%Z).
Qed.

(** ** The Signature Verifier: what it refuses *)

Lemma surrogate_has_no_encoding : forall c,
  is_surrogate c = true -> utf8_encode_char c = None.
Proof.
  intros c H. unfold is_surrogate in H.
  apply andb_true_iff in H as [Hlo Hhi].
  apply N.leb_le in Hlo. apply N.leb_le in Hhi.
  unfold utf8_encode_char.
  replace (c <? 0x80) with false by (symmetry; apply N.ltb_ge; lia).
  replace (c <? 0x800) with false by (symmetry; apply N.ltb_ge; lia).
  unfold is_surrogate.
  replace (0xD800 <=? c) with true by (symmetry; apply N.leb_le; lia).
  replace (c <=? 0xDFFF) with true by (symmetry; apply N.leb_le; lia).
  reflexivity.
Qed.

Lemma utf8_encode_from_raises : forall whole s c,
  In c s -> utf8_encode_char c = None ->
  utf8_encode_from whole s = Raise (UnicodeEncodeError whole).
Proof.
  induction s as [|d s IH]; intros c Hin Hc; [contradiction|].
  cbn [utf8_encode_from].
  destruct (utf8_encode_char d) as [bs|] eqn:Hd; [|reflexivity].
  destruct Hin as [-> | Hin]; [congruence|].
  now rewrite (IH c Hin Hc).
Qed.

(** X3.  A secret that holds a surrogate code point (what os.environ makes of
    an octet that is not UTF-8) cannot be encoded; the exception is caught
    and the verifier returns [False] whatever the body and the header are. *)
Theorem verify_rejects_under_unencodable_secret :
  forall data hmac_header secret c,
    In c secret -> is_surrogate c = true ->
    verify_shopify_signature data hmac_header secret = false.
Proof.
  intros data hmac_header secret c Hin Hc.
  unfold verify_shopify_signature, str_encode_utf8.
  now rewrite (utf8_encode_from_raises secret secret c Hin
                 (surrogate_has_no_encoding c Hc)).
Qed.

(** X2.  A header value with a character outside ASCII is refused: on it
    hmac.compare_digest raises TypeError, which the verifier turns into
    [False]. *)
Theorem verify_rejects_non_ascii_header :
  forall data hmac_header secret c,
    In c hmac_header -> is_ascii c = false ->
    verify_shopify_signature data hmac_header secret = false.
Proof.
  intros data hmac_header secret c Hin Hc.
  assert (Hh : List.forallb is_ascii hmac_header = false).
  { destruct (List.forallb is_ascii hmac_header) eqn:E; [|reflexivity].
    rewrite forallb_forall in E. rewrite (E c Hin) in Hc. discriminate Hc. }
  destruct (str_encode_utf8 secret) as [key | e] eqn:Hkey.
  - rewrite (verify_with_key data hmac_header secret key Hkey).
    unfold compare_digest. rewrite Hh, andb_false_r. reflexivity.
  - unfold verify_shopify_signature. now rewrite Hkey.
Qed.

Lemma b64encode_length_32 : forall l : bytes,
  List.length l = 32%nat -> List.length (Base64.b64encode l) = 44%nat.
Proof.
  intros l H.
  do 32 (destruct l as [|? l]; [discriminate H|]).
  destruct l; [reflexivity | discriminate H].
Qed.

(** X1.  A header value that verifies is 44 ASCII characters long, the base64
    text of a 32-octet digest; a value of any other length is refused. *)
Theorem valid_signature_has_44_characters :
  forall data hmac_header secret,
    verify_shopify_signature data hmac_header secret = true ->
    List.length hmac_header = 44%nat
    /\ List.forallb is_ascii hmac_header = true.
Proof.
  intros data hmac_header secret H.
  apply verify_iff_expected in H. unfold expected_signature in H.
  destruct (str_encode_utf8 secret) as [key | e]; [|discriminate H].
  injection H as <-. split.
  - rewrite length_map. apply b64encode_length_32.
    unfold HMAC.digest. apply sha256_digest_length.
  - apply b64encode_is_ascii.
Qed.

(** ** The Relay Forwarder: every outcome *)

(** X4.  The forwarder makes exactly one call whatever comes back (it never
    retries and never gives up before calling): a POST of the payload to the
    instance's URL, with the five headers and a timeout of 25 seconds. *)
Theorem forward_to_maistro_single_call :
  forall payload api_key override_agent debug instance_id net tr,
    snd (forward_to_maistro payload api_key override_agent debug instance_id
                            net tr)
    = tr ++ [mkCall
               (mkRequest
                  (py "https://api-usw.neuralseek.com/v1/" ++ instance_id
                   ++ py "/maistro")
                  payload
                  [ (py "Content-Type", py "application/json");
                    (py "apikey", api_key);
                    (py "overrideschema", py "true");
                    (py "overrideagent", override_agent);
                    (py "debug", debug) ]
                  (py "POST"))
               25].
Proof.
  intros. rewrite forward_to_maistro_trace. reflexivity.
Qed.

Lemma pair_of_parts : forall (A B : Type) (p : A * B) (a : A) (b : B),
  fst p = a -> snd p = b -> p = (a, b).
Proof. intros A B [x y] a b; cbn; congruence. Qed.

(** X5.  A response (urlopen returns only for a status it does not treat as
    an error) with a UTF-8 body: the status and the body's text. *)
Theorem forward_returns_the_response :
  forall payload api_key override_agent debug instance_id net tr
         status raw text,
    net (the_call payload api_key override_agent debug instance_id)
    = Responded status raw ->
    utf8_decode raw = Some text ->
    forward_to_maistro payload api_key override_agent debug instance_id net tr
    = (Ok (status, text),
       tr ++ [the_call payload api_key override_agent debug instance_id]).
Proof.
  intros until text. intros Hnet Hdec. apply pair_of_parts.
  - exact (forward_responded _ _ _ _ _ net tr status raw text Hnet Hdec).
  - apply forward_to_maistro_trace.
Qed.


(** X7.  An HTTP error status whose body cannot be read to its end (the
    connection breaks or times out while [e.read()] runs): the exception of
    the read leaves the forwarder.  Line 85 runs inside the [except
    HTTPError] clause, so the clauses of lines 88 and 91 do not take it. *)
Theorem forward_unreadable_error_body_raises :
  forall payload api_key override_agent debug instance_id net tr code msg e,
    net (the_call payload api_key override_agent debug instance_id)
    = Failed (HTTPError code msg (Unreadable e)) ->
    forward_to_maistro payload api_key override_agent debug instance_id net tr
    = (Raise e,
       tr ++ [the_call payload api_key override_agent debug instance_id]).
Proof.
  intros until e. intros Hnet. apply pair_of_parts.
  - apply forward_to_maistro_raises_iff.
    now exists code, msg, (Unreadable e).
  - apply forward_to_maistro_trace.
Qed.



(** X10.  A response whose body is not UTF-8 is reported as a failure of the
    forwarder: the status of the exchange is dropped and 500 returned. *)
Theorem forward_undecodable_response_500 :
  forall payload api_key override_agent debug instance_id net tr status raw,
    net (the_call payload api_key override_agent debug instance_id)
    = Responded status raw ->
    utf8_decode raw = None ->
    forward_to_maistro payload api_key override_agent debug instance_id net tr
    = (Ok (500%Z,
           Json.dumps [(py "error",
                        Json.JStr (exn_str (UnicodeDecodeError raw)))]),
       tr ++ [the_call payload api_key override_agent debug instance_id]).
Proof.
  intros until raw. intros Hnet Hdec. apply pair_of_parts.
  - exact (forward_responded_garbled _ _ _ _ _ net tr status raw Hnet Hdec).
  - apply forward_to_maistro_trace.
Qed.


(** ** The response body *)

Lemma hex_digit_printable : forall n,
  n < 16 -> printable (Json.hex_digit n) = true.
Proof.
  intros n H. unfold Json.hex_digit, printable.
  destruct (N.ltb_spec n 10); apply andb_true_iff; split;
    apply N.leb_le; lia.
Qed.

Lemma u_escape_printable : forall c,
  List.forallb printable (Json.u_escape c) = true.
Proof.
  intros c. unfold Json.u_escape. cbn [List.forallb].
  rewrite !hex_digit_printable by (apply N.mod_upper_bound; discriminate).
  reflexivity.
Qed.

Lemma escape_char_printable : forall c,
  List.forallb printable (Json.escape_char c) = true.
Proof.
  intros c. unfold Json.escape_char.
  repeat match goal with
         | |- context [if ?b then _ else _] =>
             destruct b eqn:?; [try reflexivity|]
         end.
  - cbn [List.forallb]. unfold printable.
    match goal with H : _ && _ = true |- _ => now rewrite H end.
  - apply u_escape_printable.
  - rewrite forallb_app, !u_escape_printable. reflexivity.
Qed.

Lemma escaped_printable : forall s,
  List.forallb printable (List.flat_map Json.escape_char s) = true.
Proof.
  induction s as [|c s IH]; [reflexivity|].
  cbn [List.flat_map]. now rewrite forallb_app, escape_char_printable, IH.
Qed.

Lemma encode_str_printable : forall s,
  List.forallb printable (Json.encode_str s) = true.
Proof.
  intros s. unfold Json.encode_str. cbn [app List.forallb].
  now rewrite forallb_app, escaped_printable.
Qed.

Lemma string_of_uint_printable : forall d,
  List.forallb printable (py (NilZero.string_of_uint d)) = true.
Proof.
  assert (H : forall d,
             List.forallb printable (py (NilEmpty.string_of_uint d)) = true)
    by (induction d; cbn; auto).
  intros d. unfold NilZero.string_of_uint. destruct d; try apply H.
  reflexivity.
Qed.

Lemma str_of_int_printable : forall n,
  List.forallb printable (Json.str_of_int n) = true.
Proof.
  intros n. unfold Json.str_of_int, NilZero.string_of_int.
  destruct (Z.to_int n) as [d | d].
  - apply string_of_uint_printable.
  - change (py (String "-" (NilZero.string_of_uint d)))
      with (45 :: py (NilZero.string_of_uint d)).
    cbn [List.forallb]. now rewrite string_of_uint_printable.
Qed.

Lemma encode_value_printable : forall v,
  List.forallb printable (Json.encode_value v) = true.
Proof.
  intros [s | n]; [apply encode_str_printable | apply str_of_int_printable].
Qed.

Lemma encode_items_printable : forall d,
  List.forallb printable (Json.encode_items d) = true.
Proof.
  induction d as [|[k v] d IH]; [reflexivity|].
  cbn [Json.encode_items]. destruct d as [|kv d].
  - now rewrite !forallb_app, encode_str_printable, encode_value_printable.
  - now rewrite !forallb_app, encode_str_printable, encode_value_printable, IH.
Qed.

(** Whatever the keys and the values are, [json.dumps] writes printable
    ASCII only. *)
Lemma dumps_printable : forall d,
  List.forallb printable (Json.dumps d) = true.
Proof.
  intros d. unfold Json.dumps.
  now rewrite !forallb_app, encode_items_printable.
Qed.

(** X21.  The body of every response is printable ASCII, whatever text the
    downstream service sent: json.dumps escapes what it echoes. *)
Theorem response_body_is_printable_ascii :
  forall environ event net r tr,
    lambda_handler environ event net [] = (Ok r, tr) ->
    List.forallb printable (body r) = true.
Proof.
  intros environ event net r tr Hrun.
  destruct (lambda_handler_cases environ event net)
    as [[_ H] | [H | [[e H] | [H | (secret & api_key & body_bytes & Hver & H)]]]];
    rewrite Hrun in H;
    try (injection H as -> _; apply dumps_printable);
    try discriminate H.
  destruct (stdout_encodes (log_line event)); [|discriminate H].
  destruct (forwarded environ api_key body_bytes net [])
    as [[[status text] | e] tr']; [|discriminate H].
  injection H as -> _.
  destruct ((200 <=? status)%Z && (status <? 300)%Z); apply dumps_printable.
Qed.

End Program.

(* ================================================================== *)
(** * Part III: the program on concrete inputs                         *)
(* ================================================================== *)

(** ** Test vectors of the library models *)

Example sha256_constants :
  List.length SHA256.K = 64%nat
  /\ List.nth 0 SHA256.K 0 = 0x428a2f98 /\ List.nth 63 SHA256.K 0 = 0xc67178f2
  /\ List.nth 0 SHA256.H0 0 = 0x6a09e667 /\ List.nth 7 SHA256.H0 0 = 0x5be0cd19.
Proof. vm_compute. repeat split. Qed.

Example sha256_abc :
  hex (SHA256.digest (bytes_of_string "abc"))
  = "ba7816bf8f01cfea414140de5dae2223b00361a396177a9cb410ff61f20015ad"%string.
Proof. vm_compute. reflexivity. Qed.

Example sha256_empty :
  hex (SHA256.digest [])
  = "e3b0c44298fc1c149afbf4c8996fb92427ae41e4649b934ca495991b7852b855"%string.
Proof. vm_compute. reflexivity. Qed.

Example sha256_two_blocks :
  hex (SHA256.digest (bytes_of_string
         "abcdbcdecdefdefgefghfghighijhijkijkljklmklmnlmnomnopnopq"))
  = "248d6a61d20638b8e5c026930c3e6039a33ce45964ff2167f6ecedd419db06c1"%string.
Proof. vm_compute. reflexivity. Qed.

Example sha256_block_boundaries :
  hex (SHA256.digest (List.repeat "a"%byte 55))
  = "9f4390f8d30c2dd92ec9f095b65e2b9ae9b0a925a5258e241c9f1e910f734318"%string
  /\ hex (SHA256.digest (List.repeat "a"%byte 64))
     = "ffe054fe7ae0cb6dc65c3af9b61d5209f439851db43d0ba5997337df154668eb"%string
  /\ hex (SHA256.digest (List.repeat "a"%byte 119))
     = "31eba51c313a5c08226adf18d4a359cfdfd8d2e816b13f4af952f7ea6584dcfb"%string.
Proof. vm_compute. repeat split. Qed.

(** RFC 4231, test case 6: a key longer than the block. *)
Example hmac_sha256_long_key :
  hex (HMAC.digest (List.repeat xaa 131)
         (bytes_of_string
            "Test Using Larger Than Block-Size Key - Hash Key First"))
  = "60e431591ee0b67f0d8a26aacbf5b77f8e0bc6213728c5140546040f0ee37f54"%string.
Proof. vm_compute. reflexivity. Qed.

Example hmac_sha256_fox :
  hex (HMAC.digest (bytes_of_string "key")
         (bytes_of_string "The quick brown fox jumps over the lazy dog"))
  = "f7bc83f430538424b13298e6aa6fb143ef4d59a14946175997479dbc2d1a3cd8"%string.
Proof. vm_compute. reflexivity. Qed.

Example b64_hmac_fox :
  Base64.b64encode (HMAC.digest (bytes_of_string "key")
         (bytes_of_string "The quick brown fox jumps over the lazy dog"))
  = bytes_of_string "97yD9DBThCSxMpjmqm+xQ+9NWaFJRhdZl0edvC0aPNg=".
Proof. vm_compute. reflexivity. Qed.

Example b64decode_sample :
  Base64Decode.b64decode (py "WzEsIDIsIDNd") = Ok Sample.payload_bytes.
Proof. vm_compute. reflexivity. Qed.

Example b64decode_unpadded :
  Base64Decode.b64decode (py "abc") = Raise Base64Decode.incorrect_padding
  /\ Base64Decode.b64decode (py "ab=")
     = Raise Base64Decode.incorrect_padding.
Proof. vm_compute. split; reflexivity. Qed.

(** One data character left over is reported in other words than a missing
    padding. *)
Example b64decode_one_left_over :
  Base64Decode.b64decode (py "a")
  = Raise (BinasciiError
             (py "Invalid base64-encoded string: number of data characters (1) cannot be 1 more than a multiple of 4"))
  /\ Base64Decode.b64decode (py "abcde")
     = Raise (BinasciiError
                (py "Invalid base64-encoded string: number of data characters (5) cannot be 1 more than a multiple of 4"))
  /\ Base64Decode.b64decode (py "YWJjZGVmZ2hpamts!Q")
     = Raise (BinasciiError
                (py "Invalid base64-encoded string: number of data characters (17) cannot be 1 more than a multiple of 4")).
Proof. vm_compute. repeat split. Qed.

(** The body of the 401 answer is the text
    [{"error": "Missing signature header"}]. *)
Example missing_signature_body :
  body (error_response 401 "Missing signature header")
  = py "{" ++ [34] ++ py "error" ++ [34] ++ py ": "
      ++ [34] ++ py "Missing signature header" ++ [34] ++ py "}".
Proof. vm_compute. reflexivity. Qed.

(** The body of a success answer is the text
    [{"message": "Webhook processed successfully", "maistro_status": 200}]. *)
Example success_body :
  body (success_response 200)
  = py "{" ++ [34] ++ py "message" ++ [34] ++ py ": "
      ++ [34] ++ py "Webhook processed successfully" ++ [34] ++ py ", "
      ++ [34] ++ py "maistro_status" ++ [34] ++ py ": 200}".
Proof. vm_compute. reflexivity. Qed.

(** ** The sample configuration and events *)

Lemma sample_configured :
  configured Sample.environ Sample.secret Sample.api_key.
Proof. repeat split; try discriminate; vm_compute; reflexivity. Qed.

Lemma sample_verified :
  verified Sample.lower Sample.environ Sample.secret Sample.api_key
           Sample.signed_event Sample.payload_bytes.
Proof.
  split; [exact sample_configured|].
  exists Sample.signature. repeat split; vm_compute; reflexivity.
Qed.

Lemma sample_loggable :
  loggable Sample.lower Sample.stdout Sample.signed_event.
Proof. vm_compute. reflexivity. Qed.

(** ** The theorems at the samples *)

(** C1 at the sample: the signature Python's hmac gives for the sample body
    is the expected one, it is accepted, and the signature under another key
    is refused. *)
Lemma verify_shopify_signature_sample :
  expected_signature Sample.secret Sample.payload_bytes = Some Sample.signature
  /\ verify_shopify_signature Sample.payload_bytes Sample.signature
                              Sample.secret = true
  /\ verify_shopify_signature Sample.payload_bytes Sample.foreign_signature
                              Sample.secret = false.
Proof.
  assert (E : expected_signature Sample.secret Sample.payload_bytes
              = Some Sample.signature) by (vm_compute; reflexivity).
  split; [exact E|].
  destruct (verify_shopify_signature_correct Sample.payload_bytes Sample.secret)
    as [Haccept Hreject].
  split.
  - apply Haccept. exact E.
  - apply Hreject. rewrite E. vm_compute. discriminate.
Defined.

(** C7 at the sample: no signature header. *)
Lemma missing_signature_header_sample :
  lambda_handler Sample.lower Sample.error_text Sample.stdout Sample.environ
                 Sample.unsigned_event Sample.net_ok []
  = (Ok (error_response 401 "Missing signature header"), []).
Proof.
  apply (missing_signature_header_401
           Sample.lower Sample.error_text Sample.stdout
           Sample.environ Sample.secret Sample.api_key).
  - exact sample_configured.
  - intros k v [[= <- <-] | []]. vm_compute. discriminate.
Defined.

(** C10 at the sample: the signature header is there and empty. *)
Lemma empty_signature_header_sample :
  lambda_handler Sample.lower Sample.error_text Sample.stdout Sample.environ
                 Sample.empty_signature_event Sample.net_ok []
  = (Ok (error_response 401 "Missing signature header"), []).
Proof.
  apply (empty_signature_header_is_missing
           Sample.lower Sample.error_text Sample.stdout
           Sample.environ Sample.secret Sample.api_key
           Sample.empty_signature_event [] (py "X-Shopify-Hmac-SHA256") []).
  - exact sample_configured.
  - reflexivity.
  - vm_compute. reflexivity.
  - intros k v [].
Defined.

(** C3 at the sample: a signature computed with another secret. *)
Lemma invalid_signature_sample :
  lambda_handler Sample.lower Sample.error_text Sample.stdout Sample.environ
                 Sample.forged_event Sample.net_ok []
  = (Ok (error_response 401 "Invalid signature"), []).
Proof.
  apply (invalid_signature_401 Sample.lower Sample.error_text Sample.stdout
           Sample.environ Sample.secret Sample.api_key Sample.forged_event
           Sample.foreign_signature Sample.payload_bytes).
  - exact sample_configured.
  - vm_compute. reflexivity.
  - discriminate.
  - vm_compute. reflexivity.
  - vm_compute. reflexivity.
Defined.

(** C4 at the sample: downstream 200 and downstream 503. *)
Lemma forwarded_event_sample :
  lambda_handler Sample.lower Sample.error_text Sample.stdout Sample.environ
                 Sample.signed_event Sample.net_ok []
  = (Ok (success_response 200),
     [outbound_call Sample.environ Sample.api_key Sample.payload_bytes])
  /\
  lambda_handler Sample.lower Sample.error_text Sample.stdout Sample.environ
                 Sample.signed_event Sample.net_unavailable []
  = (Ok (failure_response 503 (py "busy")),
     [outbound_call Sample.environ Sample.api_key Sample.payload_bytes]).
Proof.
  split.
  - apply (proj1 (forwarded_event_answers_200
           Sample.lower Sample.error_text Sample.stdout
             Sample.environ Sample.secret Sample.api_key Sample.signed_event
             Sample.payload_bytes Sample.net_ok 200%Z (py "[true]") _
             sample_verified sample_loggable
             ltac:(vm_compute; reflexivity))).
    lia.
  - apply (proj2 (forwarded_event_answers_200
           Sample.lower Sample.error_text Sample.stdout
             Sample.environ Sample.secret Sample.api_key Sample.signed_event
             Sample.payload_bytes Sample.net_unavailable 503%Z (py "busy") _
             sample_verified sample_loggable
             ltac:(vm_compute; reflexivity))).
    lia.
Defined.

(** C8 at the sample: the request carries the body of the event. *)
Lemma outbound_body_sample :
  snd (lambda_handler Sample.lower Sample.error_text Sample.stdout
                      Sample.environ
                      Sample.signed_event Sample.net_ok [])
  = [outbound_call Sample.environ Sample.api_key Sample.payload_bytes]
  /\ List.map (fun c => req_data (call_request c))
       (snd (lambda_handler Sample.lower Sample.error_text Sample.stdout
                            Sample.environ
                            Sample.signed_event Sample.net_ok []))
     = [Sample.payload_bytes].
Proof.
  apply (proj2 (outbound_body_is_raw_body
           Sample.lower Sample.error_text Sample.stdout
                  Sample.environ Sample.secret Sample.api_key
                  Sample.signed_event Sample.payload_bytes Sample.net_ok
                  sample_verified)).
  exact sample_loggable.
Defined.

(** C9 at the sample: the header name as Shopify writes it and in lower
    case. *)
Lemma header_name_case_sample :
  lambda_handler Sample.lower Sample.error_text Sample.stdout Sample.environ
    (mkEvent (Some ([(py "Content-Type", py "application/json")]
                    ++ (py "X-Shopify-Hmac-SHA256", Sample.signature) :: []))
             (Some Sample.payload) (Some false))
    Sample.net_ok []
  = lambda_handler Sample.lower Sample.error_text Sample.stdout Sample.environ
      (mkEvent (Some ([(py "Content-Type", py "application/json")]
                      ++ (py "x-shopify-hmac-sha256", Sample.signature) :: []))
               (Some Sample.payload) (Some false))
      Sample.net_ok [].
Proof.
  apply (header_name_case_insensitive
           Sample.lower Sample.error_text Sample.stdout).
  vm_compute. reflexivity.
Defined.

(** C6 at the samples: no API key, and no instance id. *)
Lemma configuration_error_sample :
  lambda_handler Sample.lower Sample.error_text Sample.stdout
                 Sample.environ_no_api_key
                 Sample.signed_event Sample.net_ok []
  = (Ok (error_response 500 "Configuration error"), [])
  /\
  lambda_handler Sample.lower Sample.error_text Sample.stdout
                 Sample.environ_no_instance
                 Sample.signed_event Sample.net_ok []
  = lambda_handler Sample.lower Sample.error_text Sample.stdout
      (dict_set Sample.environ_no_instance (py "MAISTRO_INSTANCE_ID")
                (py "my-instance"))
      Sample.signed_event Sample.net_ok [].
Proof.
  split.
  - apply (proj1 (configuration_error_500
           Sample.lower Sample.error_text Sample.stdout
                    Sample.environ_no_api_key Sample.signed_event
                    Sample.net_ok)).
    right. left. vm_compute. reflexivity.
  - apply (proj2 (configuration_error_500
           Sample.lower Sample.error_text Sample.stdout
                    Sample.environ_no_instance Sample.signed_event
                    Sample.net_ok)).
    vm_compute. reflexivity.
Defined.

(** C6 as the specification words it does not hold.  With the secret and
    the API key set and no instance id in the environment, a correctly
    signed event is not refused: it is forwarded to the instance
    "my-instance" and answered 200. *)
Lemma absent_instance_id_is_not_refused :
  dict_get Sample.environ_no_instance (py "MAISTRO_INSTANCE_ID") = None
  /\ lambda_handler Sample.lower Sample.error_text Sample.stdout
                    Sample.environ_no_instance
                    Sample.signed_event Sample.net_ok []
     = (Ok (success_response 200),
        [the_call Sample.payload_bytes Sample.api_key
                  (py "test_order_fulfilled") (py "false") (py "my-instance")])
  /\ ~ absent_configuration_is_refused
           Sample.lower Sample.error_text Sample.stdout.
Proof.
  assert (Hrun :
    lambda_handler Sample.lower Sample.error_text Sample.stdout
                   Sample.environ_no_instance
                   Sample.signed_event Sample.net_ok []
    = (Ok (success_response 200),
       [the_call Sample.payload_bytes Sample.api_key
                 (py "test_order_fulfilled") (py "false") (py "my-instance")]))
    by (vm_compute; reflexivity).
  split; [reflexivity|]. split; [exact Hrun|].
  intros Hclaim.
  specialize (Hclaim Sample.environ_no_instance Sample.signed_event
                     Sample.net_ok (or_intror (or_intror eq_refl))).
  rewrite Hrun in Hclaim. discriminate Hclaim.
Qed.

(** ** Where the program raises *)

(** C5 at the sample: a 502 whose body is the single octet 0xFF. *)
Lemma forward_to_maistro_raises_sample :
  forward_to_maistro Sample.error_text Sample.payload_bytes Sample.api_key
    (py "test_order_fulfilled") (py "false") (py "inst-1")
    Sample.net_garbled_error []
  = (Raise (UnicodeDecodeError [xff]),
     [the_call Sample.payload_bytes Sample.api_key
               (py "test_order_fulfilled") (py "false") (py "inst-1")]).
Proof.
  apply (forward_to_maistro_raises Sample.error_text Sample.payload_bytes
           Sample.api_key (py "test_order_fulfilled") (py "false")
           (py "inst-1") Sample.net_garbled_error
           502%Z (py "Bad Gateway") [xff]).
  - reflexivity.
  - reflexivity.
Defined.

(** C2 at the sample: the event says its body is base64 and the body is
    "abc"; base64.b64decode raises binascii.Error. *)
Lemma lambda_handler_raises_on_invalid_base64 :
  lambda_handler Sample.lower Sample.error_text Sample.stdout Sample.environ
                 Sample.bad_base64_event Sample.net_ok []
  = (Raise Base64Decode.incorrect_padding, []).
Proof.
  apply (undecodable_body_raises Sample.lower Sample.error_text Sample.stdout
           Sample.environ Sample.secret Sample.api_key
           Sample.bad_base64_event Sample.signature).
  - exact sample_configured.
  - vm_compute. reflexivity.
  - discriminate.
  - vm_compute. reflexivity.
Defined.

(** The forwarder's exception, seen from the trigger layer: a correctly
    signed event, and no response. *)
Example lambda_handler_raises_on_garbled_error_body :
  lambda_handler Sample.lower Sample.error_text Sample.stdout Sample.environ
                 Sample.signed_event Sample.net_garbled_error []
  = (Raise (UnicodeDecodeError [xff]),
     [outbound_call Sample.environ Sample.api_key Sample.payload_bytes]).
Proof. vm_compute. reflexivity. Qed.

(** A correctly signed event whose topic holds a lone surrogate (U+D800),
    under a standard output in strict UTF-8: the print of line 159 raises
    and nothing is forwarded. *)
Example lambda_handler_raises_on_unloggable_topic :
  lambda_handler Sample.lower Sample.error_text Sample.stdout Sample.environ
                 Sample.unloggable_event Sample.net_ok []
  = (Raise (UnicodeEncodeError
              (py "Webhook topic: orders/" ++ [0xD800]
               ++ py ", Shop: unknown")), []).
Proof. vm_compute. reflexivity. Qed.

(** The connection breaks while the body of a 503 is read: the exception of
    [e.read()] leaves the forwarder and the handler. *)
Example lambda_handler_raises_on_broken_error_body :
  lambda_handler Sample.lower Sample.error_text Sample.stdout Sample.environ
                 Sample.signed_event Sample.net_broken_body []
  = (Raise (OtherException (py "IncompleteRead")),
     [outbound_call Sample.environ Sample.api_key Sample.payload_bytes]).
Proof. vm_compute. reflexivity. Qed.

(** An HTTPError built without a response (urlopen raises none such): the
    read gives a [str], which has no [decode]. *)
Example forward_to_maistro_raises_without_response :
  fst (forward_to_maistro Sample.error_text Sample.payload_bytes
         Sample.api_key (py "test_order_fulfilled") (py "false")
         (py "inst-1")
         (fun _ => Failed (HTTPError 404 (py "Not Found") NoResponse)) [])
  = Raise (AttributeError (py "'str' object has no attribute 'decode'")).
Proof. vm_compute. reflexivity. Qed.

(** ** Further runs *)

(** The connection fails (urllib raises URLError): the forwarder makes up a
    502 and the handler answers 200 with it. *)
Example run_connection_failure :
  lambda_handler Sample.lower Sample.error_text Sample.stdout Sample.environ
                 Sample.signed_event Sample.net_down []
  = (Ok (failure_response 502
           (Json.dumps [(py "error",
                         Json.JStr (py "Failed to connect to Maistro API"))])),
     [outbound_call Sample.environ Sample.api_key Sample.payload_bytes]).
Proof. vm_compute. reflexivity. Qed.

(** The response does not arrive in time (TimeoutError, which is no
    URLError): the forwarder takes its last clause and makes up a 500. *)
Example run_read_timeout :
  lambda_handler Sample.lower Sample.error_text Sample.stdout Sample.environ
                 Sample.signed_event Sample.net_read_timeout []
  = (Ok (failure_response 500
           (Json.dumps [(py "error", Json.JStr (py "timed out"))])),
     [outbound_call Sample.environ Sample.api_key Sample.payload_bytes]).
Proof. vm_compute. reflexivity. Qed.

(** The same body sent base64-encoded verifies under the same signature. *)
Example run_base64_body :
  lambda_handler Sample.lower Sample.error_text Sample.stdout Sample.environ
    (mkEvent (Some [(py "x-shopify-hmac-sha256", Sample.signature)])
             (Some (py "WzEsIDIsIDNd")) (Some true))
    Sample.net_ok []
  = (Ok (success_response 200),
     [outbound_call Sample.environ Sample.api_key Sample.payload_bytes]).
Proof. vm_compute. reflexivity. Qed.

(** ** The further properties at the samples *)

(** X5 at the sample: a 200 with the body "[true]". *)
Lemma forward_returns_the_response_sample :
  forward_to_maistro Sample.error_text Sample.payload_bytes Sample.api_key
    (py "test_order_fulfilled") (py "false") (py "inst-1") Sample.net_ok []
  = (Ok (200%Z, py "[true]"), [] ++ [the_call Sample.payload_bytes Sample.api_key
                       (py "test_order_fulfilled") (py "false")
                       (py "inst-1")]).
Proof.
  apply (forward_returns_the_response Sample.error_text Sample.payload_bytes
           Sample.api_key (py "test_order_fulfilled") (py "false")
           (py "inst-1") Sample.net_ok [] 200%Z
           (List.map byte_of_N (py "[true]"))).
  - reflexivity.
  - vm_compute. reflexivity.
Defined.


(** X7 at the sample: a 503 whose body breaks off. *)
Lemma forward_unreadable_error_body_sample :
  forward_to_maistro Sample.error_text Sample.payload_bytes Sample.api_key
    (py "test_order_fulfilled") (py "false") (py "inst-1")
    Sample.net_broken_body []
  = (Raise (OtherException (py "IncompleteRead")),
     [] ++ [the_call Sample.payload_bytes Sample.api_key
                       (py "test_order_fulfilled") (py "false")
                       (py "inst-1")]).
Proof.
  apply (forward_unreadable_error_body_raises Sample.error_text
           Sample.payload_bytes Sample.api_key (py "test_order_fulfilled")
           (py "false") (py "inst-1") Sample.net_broken_body [] 503%Z
           (py "Service Unavailable")).
  reflexivity.
Defined.



(** X10 at the sample: a 200 whose body is the octet 0xFF. *)
Lemma forward_undecodable_response_sample :
  forward_to_maistro Sample.error_text Sample.payload_bytes Sample.api_key
    (py "test_order_fulfilled") (py "false") (py "inst-1")
    Sample.net_garbled_ok []
  = (Ok (500%Z,
         Json.dumps [(py "error",
                      Json.JStr (exn_str Sample.error_text
                                   (UnicodeDecodeError [xff])))]),
     [] ++ [the_call Sample.payload_bytes Sample.api_key
                       (py "test_order_fulfilled") (py "false")
                       (py "inst-1")]).
Proof.
  apply (forward_undecodable_response_500 Sample.error_text
           Sample.payload_bytes Sample.api_key (py "test_order_fulfilled")
           (py "false") (py "inst-1") Sample.net_garbled_ok [] 200%Z [xff]).
  - reflexivity.
  - reflexivity.
Defined.



(** X13 at the sample: the answer to the forged event has status 401. *)
Lemma lambda_handler_status_sample :
  statusCode (error_response 401 "Invalid signature") = 200%Z
  \/ statusCode (error_response 401 "Invalid signature") = 401%Z
  \/ statusCode (error_response 401 "Invalid signature") = 500%Z.
Proof.
  apply (lambda_handler_status Sample.lower Sample.error_text Sample.stdout
                               Sample.environ
           Sample.forged_event Sample.net_ok
           (error_response 401 "Invalid signature") []).
  vm_compute. reflexivity.
Defined.

(** X14 at the sample: the signed event causes a call, and it verifies. *)
Lemma no_call_without_valid_signature_sample :
  exists secret api_key body_bytes,
    verified Sample.lower Sample.environ secret api_key Sample.signed_event
             body_bytes
    /\ snd (lambda_handler Sample.lower Sample.error_text Sample.stdout
                           Sample.environ
                           Sample.signed_event Sample.net_ok [])
       = [outbound_call Sample.environ api_key body_bytes].
Proof.
  apply (no_call_without_valid_signature
           Sample.lower Sample.error_text Sample.stdout
           Sample.environ Sample.signed_event Sample.net_ok).
  vm_compute. discriminate.
Defined.

(** X15 at the sample: the 200 answer to the signed event, downstream 503. *)
Lemma answer_200_only_if_verified_sample :
  exists secret api_key body_bytes status text,
    verified Sample.lower Sample.environ secret api_key Sample.signed_event
             body_bytes
    /\ forwarded Sample.error_text Sample.environ api_key body_bytes
                 Sample.net_unavailable []
       = (Ok (status, text),
          [outbound_call Sample.environ Sample.api_key Sample.payload_bytes])
    /\ [outbound_call Sample.environ Sample.api_key Sample.payload_bytes]
       = [outbound_call Sample.environ api_key body_bytes]
    /\ failure_response 503 (py "busy")
       = (if (200 <=? status)%Z && (status <? 300)%Z
          then success_response status
          else failure_response status text).
Proof.
  apply (answer_200_only_if_verified
           Sample.lower Sample.error_text Sample.stdout
           Sample.environ Sample.signed_event Sample.net_unavailable
           (failure_response 503 (py "busy"))
           [outbound_call Sample.environ Sample.api_key Sample.payload_bytes]).
  - vm_compute. reflexivity.
  - reflexivity.
Defined.

(** X16 at the sample: the 500 answer under the configuration without an
    API key. *)
Lemma answer_500_is_configuration_error_sample :
  error_response 500 "Configuration error"
  = error_response 500 "Configuration error"
  /\ @nil http_call = []
  /\ ~ (exists secret api_key,
           configured Sample.environ_no_api_key secret api_key).
Proof.
  apply (answer_500_is_configuration_error
           Sample.lower Sample.error_text Sample.stdout
           Sample.environ_no_api_key Sample.signed_event Sample.net_ok
           (error_response 500 "Configuration error") []).
  - vm_compute. reflexivity.
  - reflexivity.
Defined.

(** X17 at the sample: the 401 answer to the forged event. *)
Lemma rejected_event_makes_no_call_sample :
  snd (lambda_handler Sample.lower Sample.error_text Sample.stdout
                      Sample.environ
                      Sample.forged_event Sample.net_ok []) = [].
Proof.
  apply (rejected_event_makes_no_call
           Sample.lower Sample.error_text Sample.stdout
           Sample.environ Sample.forged_event Sample.net_ok
           (error_response 401 "Invalid signature")).
  - vm_compute. reflexivity.
  - discriminate.
Defined.

(** X18 at the sample: the signed event with and without a content-type
    header. *)
Lemma other_headers_are_ignored_sample :
  lambda_handler Sample.lower Sample.error_text Sample.stdout Sample.environ
    (mkEvent (Some ([(py "X-Shopify-Hmac-SHA256", Sample.signature)]
                    ++ (py "Content-Type", py "application/json") :: []))
             (Some Sample.payload) (Some false))
    Sample.net_ok []
  = lambda_handler Sample.lower Sample.error_text Sample.stdout Sample.environ
      (mkEvent (Some ([(py "X-Shopify-Hmac-SHA256", Sample.signature)] ++ []))
               (Some Sample.payload) (Some false))
      Sample.net_ok [].
Proof.
  apply (other_headers_are_ignored
           Sample.lower Sample.error_text Sample.stdout);
    vm_compute; discriminate.
Defined.

(** X19 at the sample: a wrong signature first, the right one last. *)
Lemma last_signature_header_wins_sample :
  lambda_handler Sample.lower Sample.error_text Sample.stdout Sample.environ
                 Sample.twice_signed_event Sample.net_ok []
  = lambda_handler Sample.lower Sample.error_text Sample.stdout Sample.environ
      (mkEvent (Some ([] ++ [] ++ (py "X-Shopify-Hmac-SHA256", Sample.signature)
                               :: []))
               (Some Sample.payload) (Some false))
      Sample.net_ok [].
Proof.
  apply (last_signature_header_wins Sample.lower Sample.error_text Sample.stdout
           Sample.environ [] (py "X-SHOPIFY-HMAC-SHA256")
           Sample.foreign_signature [] (py "X-Shopify-Hmac-SHA256")
           Sample.signature []);
    vm_compute; reflexivity.
Defined.

(** X20 at the sample: the sample body as text and as base64. *)
Lemma base64_framing_is_transparent_sample :
  lambda_handler Sample.lower Sample.error_text Sample.stdout Sample.environ
    (mkEvent (Some [(py "X-Shopify-Hmac-SHA256", Sample.signature)])
             (Some (List.map Byte.to_N
                             (Base64.b64encode Sample.payload_bytes)))
             (Some true))
    Sample.net_ok []
  = lambda_handler Sample.lower Sample.error_text Sample.stdout Sample.environ
      (mkEvent (Some [(py "X-Shopify-Hmac-SHA256", Sample.signature)])
               (Some Sample.payload) (Some false))
      Sample.net_ok [].
Proof.
  apply (base64_framing_is_transparent
           Sample.lower Sample.error_text Sample.stdout).
  - vm_compute. reflexivity.
  - left. reflexivity.
Defined.

(** X3 at the sample: the secret followed by a lone surrogate. *)
Lemma verify_rejects_under_unencodable_secret_sample :
  verify_shopify_signature Sample.payload_bytes Sample.signature
                           Sample.undecodable_secret = false.
Proof.
  apply (verify_rejects_under_unencodable_secret Sample.payload_bytes
           Sample.signature Sample.undecodable_secret 0xDC80).
  - vm_compute. tauto.
  - reflexivity.
Defined.

(** X2 at the sample: a signature with one letter outside ASCII. *)
Lemma verify_rejects_non_ascii_header_sample :
  verify_shopify_signature Sample.payload_bytes Sample.non_ascii_signature
                           Sample.secret = false.
Proof.
  apply (verify_rejects_non_ascii_header Sample.payload_bytes
           Sample.non_ascii_signature Sample.secret 0xE9).
  - left. reflexivity.
  - reflexivity.
Defined.

(** X1 at the sample: the sample signature. *)
Lemma valid_signature_has_44_characters_sample :
  List.length Sample.signature = 44%nat
  /\ List.forallb is_ascii Sample.signature = true.
Proof.
  apply (valid_signature_has_44_characters Sample.payload_bytes
           Sample.signature Sample.secret).
  vm_compute. reflexivity.
Defined.

(** X21 at the sample: the downstream body is "e" with an acute accent
    (U+00E9); the answer carries it as the escape [\u00e9]. *)
Lemma response_body_is_printable_ascii_sample :
  List.forallb printable (body (failure_response 503 [0xE9])) = true.
Proof.
  apply (response_body_is_printable_ascii
           Sample.lower Sample.error_text Sample.stdout
           Sample.environ Sample.signed_event Sample.net_accented
           (failure_response 503 [0xE9])
           [outbound_call Sample.environ Sample.api_key Sample.payload_bytes]).
  vm_compute. reflexivity.
Defined.
